(** * The provisioning engine of [src/tools/pkcs15-init.c]

    A shallow embedding of the generic part of the PKCS#15 initialisation
    tool: ACL evaluation, on-demand file creation, key-object set-up, key
    generation and storage, and the write-back of the directory files.

    The C functions become functions in a small state monad.  Everything
    that lives outside the file (libopensc, the profile loader, OpenSSL, the
    terminal) is a parameter: the constants of the absent headers in
    [Constants], the functions in [Library]. *)

From stdpp Require Import base option list gmap strings.
From Stdlib Require Import ZArith Lia.
Local Open Scope Z_scope.

(** ** Data of the absent headers, as far as the tool reads it *)

(** [struct sc_path]: the bytes [value[0 .. len-1]]. *)
Abbreviation sc_path := (list Z) (only parsing).

(** [struct sc_pkcs15_id]: the bytes [value[0 .. len-1]], each a [u8]. *)
Abbreviation sc_pkcs15_id := (list Z) (only parsing).

(** [struct sc_acl_entry]; the [next] pointers make a chain, a list here. *)
Record sc_acl_entry := AclEntry {
  method : Z;
  key_ref : Z
}.

(** [struct sc_file]: the path, the declared size and the ACL chain of each
    operation (read through the library's [sc_file_get_acl_entry]). *)
Record sc_file := ScFile {
  file_path : sc_path;
  file_size : Z;
  file_acl : gmap Z (list sc_acl_entry)
}.

Definition set_file_size (f : sc_file) (n : Z) : sc_file :=
  {| file_path := file_path f; file_size := n; file_acl := file_acl f |}.

(** [struct sc_pkcs15_pin_info], the fields the tool reads. *)
Record sc_pkcs15_pin_info := PinInfo15 {
  auth_id : sc_pkcs15_id;
  reference : Z;
  min_length : Z;
  stored_length : Z
}.

(** [struct sc_pkcs15_prkey_info] and [struct sc_pkcs15_pubkey_info]: the
    tool touches the same four fields of either. *)
Record sc_pkcs15_key_info := KeyInfo15 {
  id : sc_pkcs15_id;
  usage : Z;
  modulus_length : Z;
  key_path : sc_path
}.

(** What [obj->data] points to. *)
Inductive object_data :=
| DataNone
| DataKey (k : sc_pkcs15_key_info)
| DataPin (p : sc_pkcs15_pin_info).

(** [struct sc_pkcs15_object]. *)
Record sc_pkcs15_object := Object15 {
  obj_type : Z;
  obj_label : string;
  obj_auth_id : sc_pkcs15_id;
  obj_data : object_data
}.

(** [struct pin_info] of the profile: [secret[0]] is the PIN, [secret[1]]
    the PUK, each a null pointer until known. *)
Record pin_info := PinInfo {
  pin_ident : string;
  pin_pkcs15_obj : sc_pkcs15_object;
  pin_pkcs15 : sc_pkcs15_pin_info;
  pin_secret : list (option string);
  pin_attempt : list Z
}.

Definition set_pin_secret (info : pin_info) (secret : list (option string)) : pin_info :=
  {| pin_ident := pin_ident info; pin_pkcs15_obj := pin_pkcs15_obj info;
     pin_pkcs15 := pin_pkcs15 info; pin_secret := secret;
     pin_attempt := pin_attempt info |}.

(** [struct sc_key_template]: a prototype key object.  [kt_file] and
    [kt_key_acl] are pointers, null in a fresh template. *)
Record sc_key_template := KeyTemplate {
  kt_ident : string;
  kt_file : option sc_file;
  kt_pkcs15_obj : sc_pkcs15_object;
  kt_pkcs15 : sc_pkcs15_key_info;
  kt_key_acl : list sc_acl_entry
}.

(** [struct auth_info]: a key bound to an ACL method and reference. *)
Record auth_info := AuthInfo {
  auth_type : Z;
  auth_ref : Z;
  auth_key : list Z
}.

(** [struct file_info]: a file template of the profile. *)
Record file_info := FileInfo {
  fi_ident : string;
  fi_file : sc_file
}.

(** [struct sc_profile]. *)
Record sc_profile := Profile {
  pin_list : list pin_info;
  prkey_list : list sc_key_template;
  pubkey_list : list sc_key_template;
  profile_df : gmap Z sc_file;
  auth_list : list auth_info;
  file_list : list file_info
}.

Definition set_pin_list (pro : sc_profile) (l : list pin_info) : sc_profile :=
  {| pin_list := l; prkey_list := prkey_list pro; pubkey_list := pubkey_list pro;
     profile_df := profile_df pro; auth_list := auth_list pro;
     file_list := file_list pro |}.

(** [struct sc_pkcs15_df]: the backing files [file[0 .. count-1]] and the
    objects, each with the slot [file_nr] of [obj[file_nr]] it hangs on, in
    the order they were added. *)
Record sc_pkcs15_df := Df15 {
  df_file : list sc_file;
  df_obj : list (nat * sc_pkcs15_object)
}.

Definition df_count (df : sc_pkcs15_df) : nat := length (df_file df).

Definition empty_df : sc_pkcs15_df := {| df_file := []; df_obj := [] |}.

(** [struct sc_pkcs15_card]. *)
Record sc_pkcs15_card := Card15 {
  p15_df : gmap Z sc_pkcs15_df;
  file_odf : sc_file;
  file_tokeninfo : sc_file
}.

Definition get_df (p15 : sc_pkcs15_card) (df_type : Z) : sc_pkcs15_df :=
  default empty_df (p15_df p15 !! df_type).

Definition set_df (p15 : sc_pkcs15_card) (df_type : Z) (df : sc_pkcs15_df) : sc_pkcs15_card :=
  {| p15_df := <[df_type := df]> (p15_df p15); file_odf := file_odf p15;
     file_tokeninfo := file_tokeninfo p15 |}.

(** OpenSSL key material is opaque to the tool. *)
Record RSA := RsaKey { rsa_material : list Z }.
Record DSA := DsaKey { dsa_material : list Z }.

(** [EVP_PKEY]: a key tagged with its type; [PKEY_NONE] is what
    [EVP_PKEY_new] returns, or a key of any other type. *)
Inductive EVP_PKEY :=
| PKEY_RSA (rsa : RSA)
| PKEY_DSA (dsa : DSA)
| PKEY_NONE.

(** [struct sc_pkcs15init_keyargs]. *)
Record sc_pkcs15init_keyargs := KeyArgs {
  ka_id : sc_pkcs15_id;
  ka_label : option string;
  ka_template_name : option string;
  ka_algorithm : Z;
  ka_keybits : Z;
  ka_onboard_keygen : Z;
  ka_pkey : option EVP_PKEY
}.

Definition set_ka_id (k : sc_pkcs15init_keyargs) (i : sc_pkcs15_id) : sc_pkcs15init_keyargs :=
  {| ka_id := i; ka_label := ka_label k; ka_template_name := ka_template_name k;
     ka_algorithm := ka_algorithm k; ka_keybits := ka_keybits k;
     ka_onboard_keygen := ka_onboard_keygen k; ka_pkey := ka_pkey k |}.




(** A [printf]-style message: the format and its arguments. *)
Inductive fmt_arg :=
| ArgS (s : string)
| ArgU (n : Z).

Record message := Msg {
  msg_format : string;
  msg_args : list fmt_arg
}.

(** ** The constants of the absent headers

    Their values are not in the sources.  What the C code relies on is that
    the error codes are negative, that the ACL methods it tells apart are
    different numbers, that algorithm numbers stay below the bit the key
    set-up uses for privacy, and that the class mask sends each key type to
    its class. *)
Class Constants := {
  SC_AC_NONE : Z;
  SC_AC_CHV : Z;
  SC_AC_PRO : Z;
  SC_AC_AUT : Z;
  SC_AC_NEVER : Z;
  SC_AC_OP_CREATE : Z;
  SC_AC_OP_UPDATE : Z;
  SC_ERROR_FILE_NOT_FOUND : Z;
  SC_ERROR_NOT_SUPPORTED : Z;
  SC_ERROR_OBJECT_NOT_FOUND : Z;
  SC_ERROR_INVALID_ARGUMENTS : Z;
  SC_ERROR_SECURITY_STATUS_NOT_SATISFIED : Z;
  SC_ALGORITHM_RSA : Z;
  SC_ALGORITHM_DSA : Z;
  SC_PKCS15_TYPE_CLASS_MASK : Z;
  SC_PKCS15_TYPE_PRKEY : Z;
  SC_PKCS15_TYPE_PUBKEY : Z;
  SC_PKCS15_TYPE_PRKEY_RSA : Z;
  SC_PKCS15_TYPE_PUBKEY_RSA : Z;
  (** [SC_PKCS15_TYPE_PRKEY_DSA] and [SC_PKCS15_TYPE_PUBKEY_DSA], when the
      header defines them (the code tests it with [#ifdef]). *)
  SC_PKCS15_TYPE_DSA : option (Z * Z);
  SC_PKCS15_PRKDF : Z;
  SC_PKCS15_PUKDF : Z;
  SC_PKCS15_AODF : Z;
  sc_errors_negative :
    Forall (λ e, e < 0)
      [SC_ERROR_FILE_NOT_FOUND; SC_ERROR_NOT_SUPPORTED; SC_ERROR_OBJECT_NOT_FOUND;
       SC_ERROR_INVALID_ARGUMENTS; SC_ERROR_SECURITY_STATUS_NOT_SATISFIED];
  sc_ac_methods_distinct :
    NoDup [SC_AC_NONE; SC_AC_CHV; SC_AC_PRO; SC_AC_AUT; SC_AC_NEVER];
  sc_algorithms_small :
    Forall (λ a, 0 ≤ a < 65536) [SC_ALGORITHM_RSA; SC_ALGORITHM_DSA];
  sc_algorithms_distinct : SC_ALGORITHM_RSA ≠ SC_ALGORITHM_DSA;
  sc_key_classes_distinct : SC_PKCS15_TYPE_PRKEY ≠ SC_PKCS15_TYPE_PUBKEY;
  sc_key_type_classes :
    Z.land SC_PKCS15_TYPE_PRKEY_RSA SC_PKCS15_TYPE_CLASS_MASK = SC_PKCS15_TYPE_PRKEY ∧
    Z.land SC_PKCS15_TYPE_PUBKEY_RSA SC_PKCS15_TYPE_CLASS_MASK = SC_PKCS15_TYPE_PUBKEY ∧
    (∀ prkey_dsa pubkey_dsa, SC_PKCS15_TYPE_DSA = Some (prkey_dsa, pubkey_dsa) →
       Z.land prkey_dsa SC_PKCS15_TYPE_CLASS_MASK = SC_PKCS15_TYPE_PRKEY ∧
       Z.land pubkey_dsa SC_PKCS15_TYPE_CLASS_MASK = SC_PKCS15_TYPE_PUBKEY);
  sc_df_kinds_distinct :
    NoDup [SC_PKCS15_PRKDF; SC_PKCS15_PUKDF; SC_PKCS15_AODF]
}.

(** ** What the tool calls and does not define

    The card, the terminal and the random pool behind them are one opaque
    [world]; a call takes it and returns it changed.  The profile look-ups
    and the encoders are functions of the data they read.  The last three
    fields are the card-specific operations the tool binds at start-up
    ([struct pkcs15_init_operations]); [store_rsa] and [store_dsa] may be
    null. *)
Class Library := {
  world : Type;
  card_select_file : sc_path → world → Z * option sc_file * world;
  card_verify : Z → Z → list Z → world → Z * world;
  card_create_file : sc_file → world → Z * world;
  card_update_binary : Z → list Z → world → Z * world;
  tty_getpass : message → world → string * world;
  sc_file_get_acl_entry : sc_file → Z → list sc_acl_entry;
  sc_profile_find_key : sc_profile → Z → Z → option auth_info;
  sc_profile_find_file_by_path : sc_profile → sc_path → option file_info;
  sc_profile_find_private_key : sc_profile → string → option sc_key_template;
  sc_profile_find_public_key : sc_profile → string → option sc_key_template;
  sc_pkcs15_encode_df : sc_pkcs15_df → nat → Z * list Z;
  sc_pkcs15_encode_odf : sc_pkcs15_card → Z * list Z;
  sc_pkcs15_encode_tokeninfo : sc_pkcs15_card → Z * list Z;
  sc_pkcs15_find_pin_by_auth_id : sc_pkcs15_card → sc_pkcs15_id → Z * option sc_pkcs15_object;
  sc_strerror : Z → string;
  ossl_RAND_load_file : world → Z * world;
  ossl_RSA_generate_key : Z → world → option RSA * world;
  ossl_DSA_generate_parameters : Z → world → option DSA * world;
  ossl_DSA_generate_key : DSA → world → Z * DSA * world;
  RSA_size : RSA → Z;
  DSA_size : DSA → Z;
  i2d_RSAPublicKey : RSA → list Z;
  ossl_BIO_write_filename : string → world → Z * world;
  ossl_PEM_write_bio_PUBKEY : string → EVP_PKEY → world → Z * world;
  ops_allocate_file : sc_profile → Z → Z → world → Z * option sc_file * world;
  ops_store_rsa : option (sc_profile → sc_key_template → RSA → world → Z * world);
  ops_store_dsa : option (sc_profile → sc_key_template → DSA → world → Z * world)
}.

(** ** Program state

    The calls the program makes are recorded, in order, in [st_trace]: the
    trace is not program data, it is what lets a statement say which calls
    were made and which were not. *)
Inductive event :=
| EvSelectFile (path : sc_path) (r : Z)
| EvVerify (type ref : Z) (secret : list Z) (r : Z)
| EvCreateFile (file : sc_file) (r : Z)
| EvUpdateBinary (idx : Z) (data : list Z) (r : Z)
| EvGetpass (prompt : message) (answer : string)
| EvPrintf (m : message)
| EvError (m : message)
| EvAllocateFile (type index : Z) (r : Z)
| EvStoreKey (key : EVP_PKEY) (r : Z)
| EvSeedRandom (r : Z)
| EvGenerateRSA (keybits : Z) (key : option RSA)
| EvGenerateDSAParameters (keybits : Z) (key : option DSA)
| EvGenerateDSAKey (r : Z)
| EvWriteKeyFile (filename : string) (r : Z)
| EvPrintErrors.

(** [st_world]: the global [card] and all that is behind it;
    [st_profile]: the [struct sc_profile] every function gets by pointer;
    [st_p15card]: the global [p15card];
    [st_seeded]: the static [initialized] of [ossl_seed_random]. *)
Record state `{Library} := State {
  st_world : world;
  st_profile : sc_profile;
  st_p15card : sc_pkcs15_card;
  st_seeded : bool;
  st_trace : list event
}.

(** Why a run gives no result: a loop or a recursion outlived its fuel, a
    null or out-of-range pointer was followed, or [fatal] ended the
    process. *)
Inductive halt :=
| OutOfFuel
| Fault
| Fatal (m : message).

Inductive outcome `{Library} (A : Type) :=
| Ret (a : A) (s : state)
| Stop (h : halt).
Arguments Ret {_ _} _ _.
Arguments Stop {_ _} _.

Definition M `{Library} (A : Type) : Type := state → outcome A.

#[global] Instance M_ret `{Library} : MRet M := λ A a s, Ret a s.

#[global] Instance M_bind `{Library} : MBind M := λ A B f m s,
  match m s with
  | Ret a s' => f a s'
  | Stop h => Stop h
  end.

#[global] Instance M_throw `{Library} : MThrow halt M := λ A h s, Stop h.

Section Engine.
Context `{Constants} `{Library}.

Definition get_state : M state := λ s, Ret s s.

Definition put_world (w : world) : M unit := λ s,
  Ret tt {| st_world := w; st_profile := st_profile s; st_p15card := st_p15card s;
            st_seeded := st_seeded s; st_trace := st_trace s |}.

Definition put_profile (pro : sc_profile) : M unit := λ s,
  Ret tt {| st_world := st_world s; st_profile := pro; st_p15card := st_p15card s;
            st_seeded := st_seeded s; st_trace := st_trace s |}.

Definition put_p15card (p15 : sc_pkcs15_card) : M unit := λ s,
  Ret tt {| st_world := st_world s; st_profile := st_profile s; st_p15card := p15;
            st_seeded := st_seeded s; st_trace := st_trace s |}.

Definition put_seeded (b : bool) : M unit := λ s,
  Ret tt {| st_world := st_world s; st_profile := st_profile s;
            st_p15card := st_p15card s; st_seeded := b; st_trace := st_trace s |}.

Definition log (e : event) : M unit := λ s,
  Ret tt {| st_world := st_world s; st_profile := st_profile s;
            st_p15card := st_p15card s; st_seeded := st_seeded s;
            st_trace := st_trace s ++ [e] |}.

(** A call that changes the world and returns a value. *)
Definition call {A} (f : world → A * world) (ev : A → event) : M A :=
  s ← get_state;
  let '(a, w) := f (st_world s) in
  put_world w;; log (ev a);; mret a.

Definition sc_select_file (path : sc_path) : M (Z * option sc_file) :=
  call (λ w, let '(r, f, w') := card_select_file path w in ((r, f), w'))
       (λ a, EvSelectFile path a.1).

Definition sc_verify (type ref : Z) (secret : list Z) : M Z :=
  call (card_verify type ref secret) (EvVerify type ref secret).

Definition sc_create_file (file : sc_file) : M Z :=
  call (card_create_file file) (EvCreateFile file).

(** [sc_update_binary (card, idx, buf, count, 0)] with [count] the length of
    [buf], the only way the tool calls it. *)
Definition sc_update_binary (idx : Z) (buf : list Z) : M Z :=
  call (card_update_binary idx buf) (EvUpdateBinary idx buf).

Definition getpass (prompt : message) : M string :=
  call (tty_getpass prompt) (EvGetpass prompt).

Definition error (m : message) : M unit := log (EvError m).


(** The bytes of a C string, for [(u8 * ) pin, strlen (pin)]. *)
Definition string_bytes (s : string) : list Z :=
  (λ c, Z.of_nat (Ascii.nat_of_ascii c)) <$> String.list_ascii_of_string s.

Definition strlen (s : string) : Z := Z.of_nat (String.length s).

(** Comparison of an [int] with an [unsigned int]: both as 32-bit
    unsigned values. *)
Definition eq_u32 (a b : Z) : bool := (a mod 2^32 =? b mod 2^32).

(** ** PIN entry: [read_one_pin] *)

(** A [struct pin_info *] into the profile's list is its position there. *)
Definition get_pin (i : nat) : M pin_info :=
  s ← get_state;
  match pin_list (st_profile s) !! i with
  | Some info => mret info
  | None => mthrow Fault
  end.

Definition put_pin (i : nat) (info : pin_info) : M unit :=
  s ← get_state;
  put_profile (set_pin_list (st_profile s) (<[i := info]> (pin_list (st_profile s)))).

(** The [while (info->secret[n] == NULL)] loop. *)
Fixpoint read_one_pin_loop (fuel : nat) (i n : nat) (prompt : message) : M Z :=
  info ← get_pin i;
  match pin_secret info !! n with
  | None => mthrow Fault
  | Some (Some _) => mret 0
  | Some None =>
      match fuel with
      | O => mthrow OutOfFuel
      | S fuel' =>
          pass ← getpass prompt;
          let passlen := strlen pass in
          if passlen <? min_length (pin_pkcs15 info) then
            error (Msg "Password too short (%u characters min)"
                       [ArgU (min_length (pin_pkcs15 info))]);;
            read_one_pin_loop fuel' i n prompt
          else if passlen >? stored_length (pin_pkcs15 info) then
            error (Msg "Password too long (%u characters max)"
                       [ArgU (stored_length (pin_pkcs15 info))]);;
            read_one_pin_loop fuel' i n prompt
          else
            put_pin i (set_pin_secret info (<[n := Some pass]> (pin_secret info)));;
            read_one_pin_loop fuel' i n prompt
      end
  end.

Definition read_one_pin (fuel : nat) (i n : nat) : M Z :=
  info ← get_pin i;
  match ["PIN"; "PUK"] !! n with
  | None => mthrow Fault
  | Some name =>
      let prompt :=
        if decide (obj_label (pin_pkcs15_obj info) = "") then
          Msg "Please enter %s for %s:" [ArgS name; ArgS (pin_ident info)]
        else
          Msg "Please enter %s for %s (%s):"
              [ArgS name; ArgS (pin_ident info); ArgS (obj_label (pin_pkcs15_obj info))]
      in
      read_one_pin_loop fuel i n prompt
  end.

(** ** Verification of one ACL entry: [do_verify_pin] *)

(** The [for] loop over [pro->pin_list]: the first PIN with this
    reference. *)
Definition find_pin_by_reference (l : list pin_info) (ref : Z) : option (nat * pin_info) :=
  list_find (λ info, eq_u32 (reference (pin_pkcs15 info)) ref = true) l.

Definition verify_ident (type : Z) : string :=
  if type =? SC_AC_CHV then "PIN"
  else if type =? SC_AC_PRO then "secure messaging key"
  else if type =? SC_AC_AUT then "authentication key"
  else "authentication data".

Definition do_verify_pin (fuel : nat) (type ref : Z) : M Z :=
  let ident := verify_ident type in
  s ← get_state;
  let pro := st_profile s in
  match (match sc_profile_find_key pro type ref with
         | Some auth => Some auth
         | None => sc_profile_find_key pro type (-1)
         end) with
  | Some auth =>
      r ← sc_verify type ref (auth_key auth);
      if r =? 0 then mret 0
      else
        error (Msg "Failed to verify %s (ref=0x%x)" [ArgS ident; ArgU ref]);;
        mret r
  | None =>
      if negb (type =? SC_AC_CHV) then mret 0
      else
        match find_pin_by_reference (pin_list pro) ref with
        | None => mret 0
        | Some (i, info) =>
            r ← match pin_secret info !! 0%nat with
                | Some (Some _) => mret 0
                | _ => read_one_pin fuel i 0
                end;
            if r <? 0 then mret r
            else
              info ← get_pin i;
              match pin_secret info !! 0%nat with
              | Some (Some pin) => sc_verify SC_AC_CHV ref (string_bytes pin)
              | _ => mthrow Fault
              end
        end
  end.

(** ** ACL evaluation: [sc_pkcs15init_authenticate] *)

(** The [for (; r == 0 && acl; acl = acl->next)] loop. *)
Fixpoint authenticate_loop (fuel : nat) (r : Z) (acl : list sc_acl_entry) : M Z :=
  match acl with
  | [] => mret r
  | entry :: next =>
      if negb (r =? 0) then mret r
      else if method entry =? SC_AC_NEVER then
        mret SC_ERROR_SECURITY_STATUS_NOT_SATISFIED
      else if method entry =? SC_AC_NONE then mret r
      else
        r ← do_verify_pin fuel (method entry) (key_ref entry);
        authenticate_loop fuel r next
  end.

Definition sc_pkcs15init_authenticate (fuel : nat) (file : sc_file) (op : Z) : M Z :=
  authenticate_loop fuel 0 (sc_file_get_acl_entry file op).

(** ** On-demand file creation: [do_select_parent], [sc_pkcs15init_create_file] *)

(** Modelled from the spec: [sc_format_path ("3F00", &path)] of libopensc
    leaves in [path] the path of "the card's master file", 3F00. *)
Definition master_file_path : sc_path := [0x3F; 0x00].

(** The parent's path, as [do_select_parent] computes it: two bytes shorter
    when there are two to drop, and the master file when nothing is left. *)
Definition parent_path (path : sc_path) : sc_path :=
  let path := if (2 <=? length path)%nat then take (length path - 2) path else path in
  if (length path =? 0)%nat then master_file_path else path.

(** [create_file] stands for the recursive call of
    [sc_pkcs15init_create_file].  The second component of the result is
    what the call leaves in [*parent]. *)
Definition do_select_parent (create_file : sc_file → M Z) (file : sc_file)
  : M (Z * option sc_file) :=
  let path := parent_path (file_path file) in
  '(r, parent) ← sc_select_file path;
  if (r =? SC_ERROR_FILE_NOT_FOUND) && negb (length path =? 2)%nat then
    s ← get_state;
    match sc_profile_find_file_by_path (st_profile s) path with
    | None => mret (r, parent)
    | Some info =>
        r ← create_file (fi_file info);
        if r =? 0 then sc_select_file path else mret (r, parent)
    end
  else mret (r, parent).

(** One unit of fuel for each nested call. *)
Fixpoint sc_pkcs15init_create_file (fuel : nat) (file : sc_file) : M Z :=
  match fuel with
  | O => mthrow OutOfFuel
  | S fuel' =>
      '(r, parent) ← do_select_parent (sc_pkcs15init_create_file fuel') file;
      if r <? 0 then mret r
      else
        match parent with
        | None => mthrow Fault
        | Some parent =>
            r ← sc_pkcs15init_authenticate fuel parent SC_AC_OP_CREATE;
            if r <? 0 then mret r else sc_create_file file
        end
  end.

(** ** Writing a file: [sc_pkcs15init_update_file]

    The function changes [file->size] in place; here it returns the file as
    it leaves it, and the caller stores it back where the pointer came
    from. *)

(** The part after the file is selected. *)
Definition update_file_present (fuel : nat) (file : sc_file) (data : list Z)
  : M (Z * sc_file) :=
  r ← sc_pkcs15init_authenticate fuel file SC_AC_OP_UPDATE;
  if r >=? 0 then
    r ← sc_update_binary 0 data;
    mret (r, file)
  else mret (r, file).

Definition sc_pkcs15init_update_file (fuel : nat) (file : sc_file) (data : list Z)
  : M (Z * sc_file) :=
  let datalen := Z.of_nat (length data) in
  '(r, _) ← sc_select_file (file_path file);
  if r <? 0 then
    let file := if file_size file <? datalen then set_file_size file datalen else file in
    if negb (r =? SC_ERROR_FILE_NOT_FOUND) then mret (r, file)
    else
      r ← sc_pkcs15init_create_file fuel file;
      if r <? 0 then mret (r, file)
      else
        '(r, _) ← sc_select_file (file_path file);
        if r <? 0 then mret (r, file)
        else update_file_present fuel file data
  else update_file_present fuel file data.

(** ** Directory write-back: [sc_pkcs15init_update_tokeninfo],
    [sc_pkcs15init_update_odf], [sc_pkcs15init_update_df] *)

Definition set_file_odf (p15 : sc_pkcs15_card) (f : sc_file) : sc_pkcs15_card :=
  {| p15_df := p15_df p15; file_odf := f; file_tokeninfo := file_tokeninfo p15 |}.

Definition set_file_tokeninfo (p15 : sc_pkcs15_card) (f : sc_file) : sc_pkcs15_card :=
  {| p15_df := p15_df p15; file_odf := file_odf p15; file_tokeninfo := f |}.

Definition set_df_file (df : sc_pkcs15_df) (l : list sc_file) : sc_pkcs15_df :=
  {| df_file := l; df_obj := df_obj df |}.

Definition sc_pkcs15init_update_tokeninfo (fuel : nat) : M Z :=
  s ← get_state;
  let '(r, buf) := sc_pkcs15_encode_tokeninfo (st_p15card s) in
  if r >=? 0 then
    '(r, file) ← sc_pkcs15init_update_file fuel (file_tokeninfo (st_p15card s)) buf;
    s ← get_state;
    put_p15card (set_file_tokeninfo (st_p15card s) file);;
    mret r
  else mret r.

Definition sc_pkcs15init_update_odf (fuel : nat) : M Z :=
  s ← get_state;
  let '(r, buf) := sc_pkcs15_encode_odf (st_p15card s) in
  if r >=? 0 then
    '(r, file) ← sc_pkcs15init_update_file fuel (file_odf (st_p15card s)) buf;
    s ← get_state;
    put_p15card (set_file_odf (st_p15card s) file);;
    mret r
  else mret r.

(** The [for (j = 0; r >= 0 && j < df->count; j++)] loop, entered at [j]
    with [todo] segments left. *)
Fixpoint update_df_loop (fuel : nat) (df_type : Z) (todo : nat) (j : nat) (r : Z) : M Z :=
  match todo with
  | O => mret r
  | S todo' =>
      if negb (r >=? 0) then mret r
      else
        s ← get_state;
        let df := get_df (st_p15card s) df_type in
        let '(r, buf) := sc_pkcs15_encode_df df j in
        if r >=? 0 then
          match df_file df !! j with
          | None => mthrow Fault
          | Some file =>
              '(r, file) ← sc_pkcs15init_update_file fuel file buf;
              s ← get_state;
              let df := get_df (st_p15card s) df_type in
              put_p15card (set_df (st_p15card s) df_type
                             (set_df_file df (<[j := file]> (df_file df))));;
              update_df_loop fuel df_type todo' (S j) r
          end
        else update_df_loop fuel df_type todo' (S j) r
  end.

(** The loop with its initial [r], over the segments the directory has
    when it is entered. *)
Definition update_df_segments (fuel : nat) (df_type : Z) (r : Z) : M Z :=
  s ← get_state;
  update_df_loop fuel df_type (df_count (get_df (st_p15card s) df_type)) 0 r.

Definition sc_pkcs15init_update_df (fuel : nat) (df_type : Z) : M Z :=
  s ← get_state;
  let df := get_df (st_p15card s) df_type in
  if (df_count df =? 0)%nat then
    match profile_df (st_profile s) !! df_type with
    | None => mret SC_ERROR_NOT_SUPPORTED
    | Some file =>
        put_p15card (set_df (st_p15card s) df_type
                       (set_df_file df (df_file df ++ [file])));;
        r ← sc_pkcs15init_update_odf fuel;
        if r <? 0 then mret r else update_df_segments fuel df_type r
    end
  else update_df_segments fuel df_type 0.

(** ** Key objects: [sc_pkcs15init_find_key], [sc_pkcs15init_new_private_key],
    [sc_pkcs15init_new_public_key], [sc_pkcs15init_setup_key] *)

Definition set_df_obj (df : sc_pkcs15_df) (l : list (nat * sc_pkcs15_object)) : sc_pkcs15_df :=
  {| df_file := df_file df; df_obj := l |}.

(** Every object the card structure holds, over all its directory
    files. *)
Definition registered_objects (p15 : sc_pkcs15_card) : list sc_pkcs15_object :=
  '(_, df) ← map_to_list (p15_df p15); (df_obj df).*2.

(** Modelled from the spec: [sc_pkcs15_get_objects (p15card, type, NULL, 0)]
    of libopensc, which is not in the sources, is "the current count of
    already-registered objects of this type". *)
Definition sc_pkcs15_get_objects (p15 : sc_pkcs15_card) (type : Z) : Z :=
  Z.of_nat (length (filter (λ o, obj_type o = type) (registered_objects p15))).

(** Modelled from the spec: [sc_pkcs15_add_object (p15card, df, file_nr,
    obj)] of libopensc "registers the object into the in-memory directory
    file slot"; it appends and cannot fail. *)
Definition sc_pkcs15_add_object (df_type : Z) (file_nr : nat) (obj : sc_pkcs15_object) : M Z :=
  s ← get_state;
  let df := get_df (st_p15card s) df_type in
  put_p15card (set_df (st_p15card s) df_type (set_df_obj df (df_obj df ++ [(file_nr, obj)])));;
  mret 0.

(** Modelled from the spec: [sc_pkcs15_format_id ("45", ip)] of libopensc
    sets the default identifier "45", one byte written in hexadecimal. *)
Definition sc_pkcs15_format_id_45 : sc_pkcs15_id := [0x45].

(** Modelled from the spec: [sc_pkcs15_compare_id] of libopensc tells
    whether two identifiers are the same. *)
Definition sc_pkcs15_compare_id (a b : sc_pkcs15_id) : Z :=
  if decide (a = b) then 1 else 0.

Definition compare_id (obj : sc_pkcs15_object) (idb : sc_pkcs15_id) : Z :=
  if (obj_type obj =? SC_PKCS15_TYPE_PRKEY_RSA) || (obj_type obj =? SC_PKCS15_TYPE_PUBKEY_RSA) then
    match obj_data obj with
    | DataKey k => sc_pkcs15_compare_id (id k) idb
    | _ => 0
    end
  else 0.

(** Modelled from the spec: [sc_pkcs15_get_objects_cond (p15card, type,
    compare_id, id, &ret, 1)] of libopensc finds "a registered object of
    that type" the callback accepts; [compare_id] is the tool's own. *)
Definition sc_pkcs15init_find_key (p15 : sc_pkcs15_card) (type : Z) (i : sc_pkcs15_id)
  : option sc_pkcs15_object :=
  snd <$> list_find (λ o, obj_type o = type ∧ 0 < compare_id o i) (registered_objects p15).

Definition set_kt_label (t : sc_key_template) (l : string) : sc_key_template :=
  {| kt_ident := kt_ident t; kt_file := kt_file t;
     kt_pkcs15_obj := {| obj_type := obj_type (kt_pkcs15_obj t); obj_label := l;
                         obj_auth_id := obj_auth_id (kt_pkcs15_obj t);
                         obj_data := obj_data (kt_pkcs15_obj t) |};
     kt_pkcs15 := kt_pkcs15 t; kt_key_acl := kt_key_acl t |}.

Definition set_kt_id (t : sc_key_template) (i : sc_pkcs15_id) : sc_key_template :=
  {| kt_ident := kt_ident t; kt_file := kt_file t; kt_pkcs15_obj := kt_pkcs15_obj t;
     kt_pkcs15 := {| id := i; usage := usage (kt_pkcs15 t);
                     modulus_length := modulus_length (kt_pkcs15 t);
                     key_path := key_path (kt_pkcs15 t) |};
     kt_key_acl := kt_key_acl t |}.

Definition set_kt_key_acl (t : sc_key_template) (a : list sc_acl_entry) : sc_key_template :=
  {| kt_ident := kt_ident t; kt_file := kt_file t; kt_pkcs15_obj := kt_pkcs15_obj t;
     kt_pkcs15 := kt_pkcs15 t; kt_key_acl := a |}.

(** [out->file = file; out->pkcs15.path = out->file->path;
     out->pkcs15_obj.data = &out->pkcs15; out->pkcs15_obj.type = type]. *)
Definition set_kt_storage (t : sc_key_template) (f : sc_file) (type : Z) : sc_key_template :=
  let info := {| id := id (kt_pkcs15 t); usage := usage (kt_pkcs15 t);
                 modulus_length := modulus_length (kt_pkcs15 t);
                 key_path := file_path f |} in
  {| kt_ident := kt_ident t; kt_file := Some f;
     kt_pkcs15_obj := {| obj_type := type; obj_label := obj_label (kt_pkcs15_obj t);
                         obj_auth_id := obj_auth_id (kt_pkcs15_obj t);
                         obj_data := DataKey info |};
     kt_pkcs15 := info; kt_key_acl := kt_key_acl t |}.

(** What the [memset (out, 0, sizeof ( *out))] of the key set-up leaves. *)
Definition zero_key_template : sc_key_template :=
  {| kt_ident := ""; kt_file := None;
     kt_pkcs15_obj := {| obj_type := 0; obj_label := ""; obj_auth_id := []; obj_data := DataNone |};
     kt_pkcs15 := {| id := []; usage := 0; modulus_length := 0; key_path := [] |};
     kt_key_acl := [] |}.

(** [ip->value[ip->len-1] += index] on bytes: the sum is cut to a [u8]. *)
Definition add_to_last_byte (ip : sc_pkcs15_id) (index : Z) : sc_pkcs15_id :=
  alter (λ v, (v + index) mod 256) (length ip - 1)%nat ip.

(** The identifier of a new key object: the caller's if it gave one, else
    the template's (or "45") with the index added to its last byte. *)
Definition assign_id (keyargs_id template_id : sc_pkcs15_id) (index : Z) : sc_pkcs15_id :=
  if negb (length keyargs_id =? 0)%nat then keyargs_id
  else
    let ip := if (length template_id =? 0)%nat then sc_pkcs15_format_id_45 else template_id in
    add_to_last_byte ip index.

Definition assign_label (keyargs_label : option string) (out : sc_key_template) (dflt : string)
  : sc_key_template :=
  match keyargs_label with
  | Some l => set_kt_label out l
  | None =>
      if decide (obj_label (kt_pkcs15_obj out) = "") then set_kt_label out dflt else out
  end.

Definition allocate_file (type index : Z) : M (Z * option sc_file) :=
  s ← get_state;
  call (λ w, let '(r, f, w') := ops_allocate_file (st_profile s) type index w in ((r, f), w'))
       (λ a, EvAllocateFile type index a.1).

(** The steps the two constructors share once the identifier, the label and
    (for a private key) the ACL are set: the sanity checks, the file, the
    registration in [df_type] and the identifier handed back. *)
Definition finish_new_key (type index : Z) (df_type : Z)
    (keyargs : sc_pkcs15init_keyargs) (out : sc_key_template)
  : M (Z * sc_pkcs15init_keyargs * sc_key_template) :=
  if (length (id (kt_pkcs15 out)) =? 0)%nat then mret (SC_ERROR_INVALID_ARGUMENTS, keyargs, out)
  else if usage (kt_pkcs15 out) =? 0 then mret (SC_ERROR_INVALID_ARGUMENTS, keyargs, out)
  else
    '(r, file) ← allocate_file type index;
    if r <? 0 then mret (r, keyargs, out)
    else
      match file with
      | None => mthrow Fault
      | Some file =>
          let out := set_kt_storage out file type in
          r ← sc_pkcs15_add_object df_type 0 (kt_pkcs15_obj out);
          if negb (r =? 0) then mret (r, keyargs, out)
          else mret (0, set_ka_id keyargs (id (kt_pkcs15 out)), out)
      end.

(** The template of a request: the one it names, else the first of the
    profile's list. *)
Definition select_template (find : sc_profile → string → option sc_key_template)
    (list : sc_profile → list sc_key_template)
    (pro : sc_profile) (keyargs : sc_pkcs15init_keyargs) : option sc_key_template :=
  match ka_template_name keyargs with
  | Some name => find pro name
  | None => head (list pro)
  end.

(** [*out = *template] followed by the label and the identifier. *)
Definition copy_template (keyargs : sc_pkcs15init_keyargs) (template : sc_key_template)
    (dflt : string) (index : Z) : sc_key_template :=
  let out := assign_label (ka_label keyargs) template dflt in
  set_kt_id out (assign_id (ka_id keyargs) (id (kt_pkcs15 out)) index).

Definition sc_pkcs15init_new_private_key (type : Z) (keyargs : sc_pkcs15init_keyargs)
  : M (Z * sc_pkcs15init_keyargs * sc_key_template) :=
  s ← get_state;
  let index := sc_pkcs15_get_objects (st_p15card s) type in
  match select_template sc_profile_find_private_key prkey_list (st_profile s) keyargs with
  | None => mret (SC_ERROR_OBJECT_NOT_FOUND, keyargs, zero_key_template)
  | Some template =>
      let out := copy_template keyargs template "Private Key" index in
      if negb (length (obj_auth_id (kt_pkcs15_obj out)) =? 0)%nat then
        let '(r, obj) := sc_pkcs15_find_pin_by_auth_id (st_p15card s)
                           (obj_auth_id (kt_pkcs15_obj out)) in
        if r <? 0 then mret (SC_ERROR_OBJECT_NOT_FOUND, keyargs, out)
        else
          match obj_data <$> obj with
          | Some (DataPin pin) =>
              finish_new_key type index SC_PKCS15_PRKDF keyargs
                (set_kt_key_acl out [AclEntry SC_AC_CHV (reference pin)])
          | _ => mthrow Fault
          end
      else finish_new_key type index SC_PKCS15_PRKDF keyargs out
  end.

Definition sc_pkcs15init_new_public_key (type : Z) (keyargs : sc_pkcs15init_keyargs)
  : M (Z * sc_pkcs15init_keyargs * sc_key_template) :=
  s ← get_state;
  let index := sc_pkcs15_get_objects (st_p15card s) type in
  match select_template sc_profile_find_public_key pubkey_list (st_profile s) keyargs with
  | None => mret (SC_ERROR_OBJECT_NOT_FOUND, keyargs, zero_key_template)
  | Some template =>
      let out := copy_template keyargs template "Public Key" index in
      finish_new_key type index SC_PKCS15_PUKDF keyargs out
  end.

(** The [switch (keyargs->algorithm | (is_private << 16))]. *)
Definition key_type (algorithm is_private : Z) : option Z :=
  let v := Z.lor algorithm (Z.shiftl is_private 16) in
  if v =? Z.lor SC_ALGORITHM_RSA 0x10000 then Some SC_PKCS15_TYPE_PRKEY_RSA
  else if v =? Z.lor SC_ALGORITHM_DSA 0x10000 then fst <$> SC_PKCS15_TYPE_DSA
  else if v =? SC_ALGORITHM_RSA then Some SC_PKCS15_TYPE_PUBKEY_RSA
  else if v =? SC_ALGORITHM_DSA then snd <$> SC_PKCS15_TYPE_DSA
  else None.

Definition sc_pkcs15init_setup_key (keyargs : sc_pkcs15init_keyargs) (is_private : Z)
  : M (Z * sc_pkcs15init_keyargs * sc_key_template) :=
  match key_type (ka_algorithm keyargs) is_private with
  | None => mret (SC_ERROR_NOT_SUPPORTED, keyargs, zero_key_template)
  | Some type =>
      s ← get_state;
      match sc_pkcs15init_find_key (st_p15card s) type (ka_id keyargs) with
      | Some _ => mret (SC_ERROR_NOT_SUPPORTED, keyargs, zero_key_template)
      | None =>
          let class := Z.land type SC_PKCS15_TYPE_CLASS_MASK in
          if class =? SC_PKCS15_TYPE_PRKEY then sc_pkcs15init_new_private_key type keyargs
          else if class =? SC_PKCS15_TYPE_PUBKEY then sc_pkcs15init_new_public_key type keyargs
          else mret (SC_ERROR_NOT_SUPPORTED, keyargs, zero_key_template)
      end
  end.

(** ** Key storage: [sc_pkcs15init_store_private_key],
    [sc_pkcs15init_store_public_key] *)

Definition set_modulus_length (k : sc_pkcs15_key_info) (n : Z) : sc_pkcs15_key_info :=
  {| id := id k; usage := usage k; modulus_length := n; key_path := key_path k |}.

Definition set_obj_modulus_length (o : sc_pkcs15_object) (n : Z) : sc_pkcs15_object :=
  {| obj_type := obj_type o; obj_label := obj_label o; obj_auth_id := obj_auth_id o;
     obj_data := match obj_data o with
                 | DataKey k => DataKey (set_modulus_length k n)
                 | d => d
                 end |}.

(** [info.pkcs15.priv.modulus_length = n] after the object was registered:
    the registered object points into [info] ([obj->data = &out->pkcs15]),
    so the write shows in the directory file, where the object is the last
    one added. *)
Definition set_registered_modulus_length (df_type : Z) (n : Z) : M unit :=
  s ← get_state;
  let df := get_df (st_p15card s) df_type in
  put_p15card (set_df (st_p15card s) df_type
                 (set_df_obj df (alter (λ e, (e.1, set_obj_modulus_length e.2 n))
                                       (length (df_obj df) - 1)%nat (df_obj df)))).

Definition store_rsa (f : sc_profile → sc_key_template → RSA → world → Z * world)
    (info : sc_key_template) (rsa : RSA) : M Z :=
  s ← get_state;
  call (f (st_profile s) info rsa) (EvStoreKey (PKEY_RSA rsa)).

Definition store_dsa (f : sc_profile → sc_key_template → DSA → world → Z * world)
    (info : sc_key_template) (dsa : DSA) : M Z :=
  s ← get_state;
  call (f (st_profile s) info dsa) (EvStoreKey (PKEY_DSA dsa)).

Definition sc_pkcs15init_store_private_key (fuel : nat) (keyargs : sc_pkcs15init_keyargs)
  : M (Z * sc_pkcs15init_keyargs) :=
  '(r, keyargs, info) ← sc_pkcs15init_setup_key keyargs 1;
  if r <? 0 then mret (r, keyargs)
  else
    match ka_pkey keyargs with
    | None => mthrow Fault
    | Some pkey =>
        r ← match pkey with
            | PKEY_RSA rsa =>
                match ops_store_rsa with
                | Some f =>
                    r ← store_rsa f info rsa;
                    set_registered_modulus_length SC_PKCS15_PRKDF (RSA_size rsa * 8);;
                    mret r
                | None => mret SC_ERROR_NOT_SUPPORTED
                end
            | PKEY_DSA dsa =>
                match ops_store_dsa with
                | Some f =>
                    r ← store_dsa f info dsa;
                    set_registered_modulus_length SC_PKCS15_PRKDF (DSA_size dsa * 8);;
                    mret r
                | None => mret SC_ERROR_NOT_SUPPORTED
                end
            | PKEY_NONE => mret SC_ERROR_NOT_SUPPORTED
            end;
        if r <? 0 then mret (r, keyargs)
        else
          r ← sc_pkcs15init_update_df fuel SC_PKCS15_PRKDF;
          mret (r, keyargs)
    end.

Definition sc_pkcs15init_store_public_key (fuel : nat) (keyargs : sc_pkcs15init_keyargs)
  : M (Z * sc_pkcs15init_keyargs) :=
  '(r, keyargs, info) ← sc_pkcs15init_setup_key keyargs 0;
  if r <? 0 then mret (r, keyargs)
  else
    match ka_pkey keyargs with
    | None => mthrow Fault
    | Some (PKEY_RSA rsa) =>
        let data := i2d_RSAPublicKey rsa in
        set_registered_modulus_length SC_PKCS15_PUKDF (RSA_size rsa * 8);;
        match kt_file info with
        | None => mthrow Fault
        | Some file =>
            '(r, _) ← sc_pkcs15init_update_file fuel file data;
            if r <? 0 then mret (r, keyargs)
            else
              r ← sc_pkcs15init_update_df fuel SC_PKCS15_PUKDF;
              mret (r, keyargs)
        end
    | Some _ => mret (SC_ERROR_NOT_SUPPORTED, keyargs)
    end.

(** ** Key generation: [ossl_seed_random],
    [sc_pkcs15init_generate_key_soft], [sc_pkcs15init_generate_key] *)




(** ** The driver: [do_generate_key], from the point where the key
    specification is parsed into [keyargs] *)








End Engine.

(** ** The claims' vocabulary *)

Section Vocabulary.
Context `{Constants} `{Library}.

(** Every run of [m] that returns has added to the trace only events of
    the class [P]. *)
Definition emits {A} (P : event → Prop) (m : M A) : Prop :=
  ∀ s a s', m s = Ret a s' → ∃ t, st_trace s' = st_trace s ++ t ∧ Forall P t.

(** Every run of [m] that returns, returns a value in [Q]. *)
Definition returns {A} (Q : A → Prop) (m : M A) : Prop :=
  ∀ s a s', m s = Ret a s' → Q a.

(** The events of ACL verification: a verification on the card, a prompt,
    an error message. *)
Definition is_auth_event (e : event) : Prop :=
  match e with
  | EvVerify _ _ _ _ | EvGetpass _ _ | EvError _ => True
  | _ => False
  end.

(** The events of file navigation: those of verification, and selecting,
    creating and writing a file. *)
Definition is_file_event (e : event) : Prop :=
  match e with
  | EvVerify _ _ _ _ | EvGetpass _ _ | EvError _
  | EvSelectFile _ _ | EvCreateFile _ _ | EvUpdateBinary _ _ _ => True
  | _ => False
  end.

(** Everything but a message on the standard output. *)
Definition is_quiet (e : event) : Prop :=
  match e with
  | EvPrintf _ => False
  | _ => True
  end.

(** The one call of the key set-up: the allocation of a file. *)
Definition is_allocation (e : event) : Prop :=
  match e with
  | EvAllocateFile _ _ _ => True
  | _ => False
  end.

(** The request a constructor hands back is the one it got, but for the
    identifier. *)
Definition same_request (keyargs : sc_pkcs15init_keyargs) (k : sc_pkcs15init_keyargs) : Prop :=
  ka_onboard_keygen k = ka_onboard_keygen keyargs ∧ ka_pkey k = ka_pkey keyargs
  ∧ ka_algorithm k = ka_algorithm keyargs.

(** An entry that is verified: neither NEVER nor NONE. *)
Definition verifiable (entry : sc_acl_entry) : Prop :=
  method entry ≠ SC_AC_NEVER ∧ method entry ≠ SC_AC_NONE.

(** The entries verified one after the other: the walk ends at the first
    verification that does not return 0, with what it returned. *)
Fixpoint verify_entries (fuel : nat) (acl : list sc_acl_entry) : M Z :=
  match acl with
  | [] => mret 0
  | entry :: next =>
      r ← do_verify_pin fuel (method entry) (key_ref entry);
      if r =? 0 then verify_entries fuel next else mret r
  end.

(** The state after a call that left the world as [w] and was recorded as
    [e]. *)
Definition after_call (s : state) (w : world) (e : event) : state :=
  {| st_world := w; st_profile := st_profile s; st_p15card := st_p15card s;
     st_seeded := st_seeded s; st_trace := st_trace s ++ [e] |}.

(** What creating a file comes to once its parent is settled: [r] and
    [parent] are what selecting the parent gave.  An error ends it; else
    the parent's CREATE ACL is authenticated, and only then the file is
    created on the card. *)
Definition create_in_parent (fuel : nat) (file : sc_file) (r : Z) (parent : option sc_file)
  : M Z :=
  if r <? 0 then mret r
  else
    match parent with
    | None => mthrow Fault
    | Some parent =>
        r ← sc_pkcs15init_authenticate fuel parent SC_AC_OP_CREATE;
        if r <? 0 then mret r else sc_create_file file
    end.




(** The identifier a request that brings none starts from: the
    template's, or "45" when the template has none. *)
Definition default_id (template : sc_key_template) : sc_pkcs15_id :=
  if (length (id (kt_pkcs15 template)) =? 0)%nat then sc_pkcs15_format_id_45
  else id (kt_pkcs15 template).

(** [n] requests one after the other: what each returned, and the
    identifier of the object it set up. *)
Fixpoint request_keys (new_key : M (Z * sc_pkcs15init_keyargs * sc_key_template)) (n : nat)
  : M (list (Z * sc_pkcs15_id)) :=
  match n with
  | O => mret []
  | S n' =>
      '(r, _, out) ← new_key;
      rest ← request_keys new_key n';
      mret ((r, id (kt_pkcs15 out)) :: rest)
  end.

(** The identifiers of [n] requests in a row that all succeeded. *)
Definition issued_ids (new_key : M (Z * sc_pkcs15init_keyargs * sc_key_template)) (n : nat)
    (s : state) : option (list sc_pkcs15_id) :=
  match request_keys new_key n s with
  | Ret l _ => if bool_decide (Forall (λ x, x.1 = 0) l) then Some l.*2 else None
  | Stop _ => None
  end.

(** C4 as the claim states it, for the part that fails: any number of
    requests in a row without an identifier get different identifiers. *)
Definition sequential_keys_get_distinct_ids : Prop :=
  ∀ n type keyargs s ids,
    ka_id keyargs = [] →
    issued_ids (sc_pkcs15init_new_private_key type keyargs) n s = Some ids →
    NoDup ids.

(** C5 as the claim states it, for the part that fails: a template for
    which no PIN is found cannot be set up. *)
Definition unresolvable_pin_is_not_storable : Prop :=
  ∀ type keyargs s template,
    select_template sc_profile_find_private_key prkey_list (st_profile s) keyargs
      = Some template →
    (sc_pkcs15_find_pin_by_auth_id (st_p15card s)
       (obj_auth_id (kt_pkcs15_obj template))).1 < 0 →
    ∃ out, sc_pkcs15init_new_private_key type keyargs s
           = Ret (SC_ERROR_OBJECT_NOT_FOUND, keyargs, out) s.


End Vocabulary.

(** ** A simulated card, to run the engine on

    The constants have the values of libopensc's headers.  The card keeps
    the files it was told to create and accepts the secrets listed in
    [card_pins]; the terminal hands out the lines of [tty_input]. *)
Module Sim.

Definition constants : Constants.
Proof.
  refine {|
    SC_AC_NONE := 0; SC_AC_CHV := 1; SC_AC_PRO := 4; SC_AC_AUT := 8;
    SC_AC_NEVER := 0xFFFFFFFF;
    SC_AC_OP_CREATE := 3; SC_AC_OP_UPDATE := 1;
    SC_ERROR_FILE_NOT_FOUND := -1201;
    SC_ERROR_NOT_SUPPORTED := -1408;
    SC_ERROR_OBJECT_NOT_FOUND := -1407;
    SC_ERROR_INVALID_ARGUMENTS := -1300;
    SC_ERROR_SECURITY_STATUS_NOT_SATISFIED := -1211;
    SC_ALGORITHM_RSA := 0; SC_ALGORITHM_DSA := 1;
    SC_PKCS15_TYPE_CLASS_MASK := 0xF00;
    SC_PKCS15_TYPE_PRKEY := 0x100; SC_PKCS15_TYPE_PUBKEY := 0x200;
    SC_PKCS15_TYPE_PRKEY_RSA := 0x101; SC_PKCS15_TYPE_PUBKEY_RSA := 0x201;
    SC_PKCS15_TYPE_DSA := Some (0x102, 0x202);
    SC_PKCS15_PRKDF := 0; SC_PKCS15_PUKDF := 1; SC_PKCS15_AODF := 8
  |}.
  - repeat constructor.
  - compute_done.
  - repeat constructor; discriminate.
  - discriminate.
  - discriminate.
  - split; [reflexivity|]. split; [reflexivity|].
    intros ?? [= <- <-]. split; reflexivity.
  - compute_done.
Defined.

Record card := Card {
  card_files : list sc_file;
  card_pins : list (Z * list Z);
  tty_input : list string
}.

Definition select_file (path : sc_path) (c : card) : Z * option sc_file * card :=
  match list_find (λ f, file_path f = path) (card_files c) with
  | Some (_, f) => (0, Some f, c)
  | None => (-1201, None, c)
  end.

Definition verify (type ref : Z) (secret : list Z) (c : card) : Z * card :=
  if bool_decide ((ref, secret) ∈ card_pins c) then (0, c) else (-1214, c).

Definition create_file (f : sc_file) (c : card) : Z * card :=
  (0, {| card_files := card_files c ++ [f]; card_pins := card_pins c;
         tty_input := tty_input c |}).

Definition update_binary (idx : Z) (buf : list Z) (c : card) : Z * card :=
  (Z.of_nat (length buf), c).

Definition read_line (prompt : message) (c : card) : string * card :=
  match tty_input c with
  | line :: rest =>
      (line, {| card_files := card_files c; card_pins := card_pins c; tty_input := rest |})
  | [] => ("", c)
  end.

Definition find_key (pro : sc_profile) (type ref : Z) : option auth_info :=
  snd <$> list_find (λ a, auth_type a = type ∧ (ref = -1 ∨ auth_ref a = ref)) (auth_list pro).

Definition find_file_by_path (pro : sc_profile) (path : sc_path) : option file_info :=
  snd <$> list_find (λ i, file_path (fi_file i) = path) (file_list pro).

Definition find_template (l : list sc_key_template) (name : string) : option sc_key_template :=
  snd <$> list_find (λ t, kt_ident t = name) l.

Definition is_pin_with (i : sc_pkcs15_id) (o : sc_pkcs15_object) : Prop :=
  match obj_data o with
  | DataPin p => auth_id p = i
  | _ => False
  end.

#[local] Instance is_pin_with_dec i o : Decision (is_pin_with i o).
Proof. unfold is_pin_with. destruct (obj_data o); apply _. Defined.

Definition find_pin_by_auth_id (p15 : sc_pkcs15_card) (i : sc_pkcs15_id)
  : Z * option sc_pkcs15_object :=
  match list_find (is_pin_with i) ((df_obj (get_df p15 8)).*2) with
  | Some (_, o) => (0, Some o)
  | None => (-1407, None)
  end.

(** The encoders: one byte per object of the segment, its type. *)
Definition encode_df (df : sc_pkcs15_df) (j : nat) : Z * list Z :=
  (0, (λ e, obj_type e.2 mod 256) <$> filter (λ e, e.1 = j) (df_obj df)).

Definition encode_odf (p15 : sc_pkcs15_card) : Z * list Z :=
  (0, (λ e, e.1 mod 256) <$> map_to_list (p15_df p15)).

(** The file of the [index]-th key of a type: under 3F00/5015. *)
Definition allocate (pro : sc_profile) (type index : Z) (c : card) : Z * option sc_file * card :=
  (0, Some {| file_path := [0x3F; 0x00; 0x50; 0x15; type mod 256; index mod 256];
              file_size := 0; file_acl := ∅ |}, c).

Definition library : Library := {|
  world := card;
  card_select_file := select_file;
  card_verify := verify;
  card_create_file := create_file;
  card_update_binary := update_binary;
  tty_getpass := read_line;
  sc_file_get_acl_entry := λ f op, default [] (file_acl f !! op);
  sc_profile_find_key := find_key;
  sc_profile_find_file_by_path := find_file_by_path;
  sc_profile_find_private_key := λ pro, find_template (prkey_list pro);
  sc_profile_find_public_key := λ pro, find_template (pubkey_list pro);
  sc_pkcs15_encode_df := encode_df;
  sc_pkcs15_encode_odf := encode_odf;
  sc_pkcs15_encode_tokeninfo := λ _, (0, [0x30; 0x00]);
  sc_pkcs15_find_pin_by_auth_id := find_pin_by_auth_id;
  sc_strerror := λ r, if r =? -1408 then "Not supported" else "Card error";
  ossl_RAND_load_file := λ c, (32, c);
  ossl_RSA_generate_key := λ bits c, (Some (RsaKey [bits]), c);
  ossl_DSA_generate_parameters := λ bits c, (Some (DsaKey [bits]), c);
  ossl_DSA_generate_key := λ dsa c, (1, dsa, c);
  RSA_size := λ rsa, 128;
  DSA_size := λ dsa, 128;
  i2d_RSAPublicKey := λ rsa, 0x30 :: rsa_material rsa;
  ossl_BIO_write_filename := λ name c, (1, c);
  ossl_PEM_write_bio_PUBKEY := λ name pk c, (1, c);
  ops_allocate_file := allocate;
  ops_store_rsa := Some (λ pro info rsa c, (0, c));
  ops_store_dsa := None
|}.

End Sim.

(** ** Scenarios on the simulated card *)
Module Scenario.
Import Sim.

#[local] Existing Instance constants.
#[local] Existing Instance library.

(** What a run returned and the state it left, when it returned. *)
Definition value_of {A} (o : outcome A) (d : A) : A :=
  match o with Ret a _ => a | Stop _ => d end.

Definition state_of {A} (o : outcome A) (d : state) : state :=
  match o with Ret _ s => s | Stop _ => d end.

(** Every file may be created in and written by anyone. *)
Definition free_acl : gmap Z (list sc_acl_entry) :=
  {[ SC_AC_OP_UPDATE := [AclEntry SC_AC_NONE 0]; SC_AC_OP_CREATE := [AclEntry SC_AC_NONE 0] ]}.

Definition file_at (path : list Z) (size : Z) : sc_file :=
  {| file_path := path; file_size := size; file_acl := free_acl |}.

Definition mf : sc_file := file_at [0x3F; 0x00] 0.
Definition df_pkcs15 : sc_file := file_at [0x3F; 0x00; 0x50; 0x15] 0.
Definition ef_odf : sc_file := file_at [0x3F; 0x00; 0x50; 0x15; 0x50; 0x31] 16.
Definition ef_tokeninfo : sc_file := file_at [0x3F; 0x00; 0x50; 0x15; 0x50; 0x32] 16.
Definition ef_prkdf : sc_file := file_at [0x3F; 0x00; 0x50; 0x15; 0x44; 0x01] 2.
Definition ef_pukdf : sc_file := file_at [0x3F; 0x00; 0x50; 0x15; 0x44; 0x02] 2.

(** A file whose UPDATE chain is: verify PIN 1, NEVER, verify PIN 2. *)
Definition guarded_file : sc_file :=
  {| file_path := [0x3F; 0x00; 0x00; 0x01]; file_size := 0;
     file_acl := {[ SC_AC_OP_UPDATE := [AclEntry SC_AC_CHV 1; AclEntry SC_AC_NEVER 0;
                                        AclEntry SC_AC_CHV 2] ]} |}.

Definition relative_df : sc_file := file_at [0x50; 0x15] 0.

(** The PIN of the spec's scenario: "CHV1", 4 to 8 characters,
    reference 1; its value is known. *)
Definition chv1_info : sc_pkcs15_pin_info :=
  {| auth_id := [1]; reference := 1; min_length := 4; stored_length := 8 |}.

Definition chv1_object : sc_pkcs15_object :=
  {| obj_type := 0x601; obj_label := "PIN"; obj_auth_id := []; obj_data := DataPin chv1_info |}.

Definition chv1 : pin_info :=
  {| pin_ident := "CHV1"; pin_pkcs15_obj := chv1_object; pin_pkcs15 := chv1_info;
     pin_secret := [Some "1234"; None]; pin_attempt := [3; 3] |}.

Definition key_template (name : string) (auth : list Z) : sc_key_template :=
  {| kt_ident := name; kt_file := None;
     kt_pkcs15_obj := {| obj_type := 0; obj_label := ""; obj_auth_id := auth;
                         obj_data := DataNone |};
     kt_pkcs15 := {| id := []; usage := 3; modulus_length := 0; key_path := [] |};
     kt_key_acl := [] |}.

(** The profile: one PIN, one private-key template protected by it, one
    public-key template, the directory files, and templates for the
    directories. *)
Definition profile : sc_profile :=
  {| pin_list := [chv1];
     prkey_list := [key_template "prkey" [1]];
     pubkey_list := [key_template "pubkey" []];
     profile_df := {[ SC_PKCS15_PRKDF := ef_prkdf; SC_PKCS15_PUKDF := ef_pukdf ]};
     auth_list := [];
     file_list := [FileInfo "PKCS15-AppDF" df_pkcs15; FileInfo "reldf" relative_df] |}.

(** The same without protection of the private key. *)
Definition open_profile : sc_profile :=
  {| pin_list := []; prkey_list := [key_template "prkey" []];
     pubkey_list := [key_template "pubkey" []];
     profile_df := profile_df profile; auth_list := []; file_list := file_list profile |}.

(** The card structure: empty, and with the PIN in the AODF. *)
Definition empty_p15card : sc_pkcs15_card :=
  {| p15_df := ∅; file_odf := ef_odf; file_tokeninfo := ef_tokeninfo |}.

Definition p15card_with_pin : sc_pkcs15_card :=
  {| p15_df := {[ SC_PKCS15_AODF := {| df_file := []; df_obj := [(0%nat, chv1_object)] |} ]};
     file_odf := ef_odf; file_tokeninfo := ef_tokeninfo |}.

(** A card with the master file only, which accepts "1234" for PIN 1. *)
Definition blank_card : card :=
  {| card_files := [mf]; card_pins := [(1, string_bytes "1234")]; tty_input := [] |}.

Definition start : state :=
  {| st_world := blank_card; st_profile := profile; st_p15card := p15card_with_pin;
     st_seeded := false; st_trace := [] |}.

Definition open_start : state :=
  {| st_world := blank_card; st_profile := open_profile; st_p15card := empty_p15card;
     st_seeded := false; st_trace := [] |}.

(** A request for an RSA key, without identifier. *)
Definition rsa_request (onboard : Z) (pkey : option EVP_PKEY) : sc_pkcs15init_keyargs :=
  {| ka_id := []; ka_label := None; ka_template_name := None;
     ka_algorithm := SC_ALGORITHM_RSA; ka_keybits := 1024;
     ka_onboard_keygen := onboard; ka_pkey := pkey |}.

(** The request the driver makes for a DSA key it generated. *)
Definition dsa_request : sc_pkcs15init_keyargs :=
  {| ka_id := []; ka_label := None; ka_template_name := None;
     ka_algorithm := SC_ALGORITHM_DSA; ka_keybits := 1024;
     ka_onboard_keygen := 0; ka_pkey := Some (PKEY_DSA (DsaKey [1024])) |}.

End Scenario.

(** ** Reasoning in the monad *)

Section MonadFacts.
Context `{Constants} `{Library}.

Lemma bind_run {A B} (m : M A) (f : A → M B) (s : state) :
  (m ≫= f) s = match m s with Ret a s' => f a s' | Stop h => Stop h end.
Proof. reflexivity. Qed.

Lemma bind_ret_run {A B} (a : A) (f : A → M B) (s : state) :
  (mret a ≫= f) s = f a s.
Proof. reflexivity. Qed.

Lemma ret_run {A} (a : A) (s : state) : (mret a : M A) s = Ret a s.
Proof. reflexivity. Qed.

Lemma get_state_run {B} (f : state → M B) (s : state) :
  (get_state ≫= f) s = f s s.
Proof. reflexivity. Qed.

Lemma sc_errors_are_negative :
  SC_ERROR_FILE_NOT_FOUND < 0 ∧ SC_ERROR_NOT_SUPPORTED < 0 ∧
  SC_ERROR_OBJECT_NOT_FOUND < 0 ∧ SC_ERROR_INVALID_ARGUMENTS < 0 ∧
  SC_ERROR_SECURITY_STATUS_NOT_SATISFIED < 0.
Proof.
  pose proof sc_errors_negative as Hneg.
  repeat (apply Forall_cons in Hneg as [? Hneg]). done.
Qed.

End MonadFacts.

(** ** The authentication engine *)

Section Authentication.
Context `{Constants} `{Library}.

Lemma ac_never_not_none : SC_AC_NEVER ≠ SC_AC_NONE.
Proof.
  pose proof sc_ac_methods_distinct as Hd.
  intros Heq. apply NoDup_cons in Hd as [Hd _]. apply Hd.
  rewrite <- Heq. set_solver.
Qed.

Lemma authenticate_loop_failed fuel r acl s :
  r ≠ 0 → authenticate_loop fuel r acl s = Ret r s.
Proof.
  intros Hr. destruct acl as [|entry next]; [reflexivity|].
  cbn [authenticate_loop]. apply Z.eqb_neq in Hr. rewrite Hr. reflexivity.
Qed.

(** The loop over a prefix of verifiable entries is their verification one
    by one; the rest of the chain is looked at only if all of them pass. *)
Lemma authenticate_loop_prefix fuel pre rest s :
  Forall verifiable pre →
  authenticate_loop fuel 0 (pre ++ rest) s =
  match verify_entries fuel pre s with
  | Ret r s' => if r =? 0 then authenticate_loop fuel 0 rest s' else Ret r s'
  | Stop h => Stop h
  end.
Proof.
  intros Hpre. revert s. induction Hpre as [|entry pre [Hnever Hnone] _ IH]; intros s.
  - reflexivity.
  - cbn [app authenticate_loop verify_entries].
    apply Z.eqb_neq in Hnever, Hnone. rewrite Hnever, Hnone. cbn [Z.eqb negb].
    rewrite !bind_run.
    destruct (do_verify_pin fuel (method entry) (key_ref entry) s) as [r s1|h]; [|reflexivity].
    destruct (r =? 0) eqn:Hr.
    + apply Z.eqb_eq in Hr as ->. apply IH.
    + rewrite authenticate_loop_failed by (by apply Z.eqb_neq).
      rewrite ret_run, Hr. reflexivity.
Qed.

(** C8. An ACL entry whose method is not PIN verification, with no key
    bound in the profile at its reference and none at the wildcard
    reference: [do_verify_pin] returns 0 and presents nothing (the state,
    its trace of calls included, is unchanged). *)
Theorem do_verify_pin_tolerates_missing_key fuel type ref s :
  type ≠ SC_AC_CHV →
  sc_profile_find_key (st_profile s) type ref = None →
  sc_profile_find_key (st_profile s) type (-1) = None →
  do_verify_pin fuel type ref s = Ret 0 s.
Proof.
  intros Htype Hexact Hany. unfold do_verify_pin.
  rewrite get_state_run, Hexact, Hany.
  apply Z.eqb_neq in Htype. rewrite Htype. reflexivity.
Qed.

(** C9. An ACL entry whose method is PIN verification, with no key bound
    at its reference or at the wildcard reference and no PIN of the
    profile's list carrying its reference: [do_verify_pin] returns 0
    without a prompt and without presenting anything (the state, its trace
    of calls included, is unchanged). *)
Theorem do_verify_pin_tolerates_missing_pin fuel ref s :
  sc_profile_find_key (st_profile s) SC_AC_CHV ref = None →
  sc_profile_find_key (st_profile s) SC_AC_CHV (-1) = None →
  Forall (λ info, eq_u32 (reference (pin_pkcs15 info)) ref = false)
         (pin_list (st_profile s)) →
  do_verify_pin fuel SC_AC_CHV ref s = Ret 0 s.
Proof.
  intros Hexact Hany Hpins. unfold do_verify_pin.
  rewrite get_state_run, Hexact, Hany, Z.eqb_refl. cbn [negb].
  replace (find_pin_by_reference (pin_list (st_profile s)) ref) with (@None (nat * pin_info)).
  - reflexivity.
  - symmetry. unfold find_pin_by_reference. apply list_find_None.
    eapply Forall_impl; [exact Hpins|]. intros info Hne Heq. congruence.
Qed.

(** C1. [sc_pkcs15init_authenticate] walks the ACL chain of the operation
    from the left.  With [pre] a run of verifiable entries at the head of
    the chain: a NEVER entry reached after all of [pre] passed gives
    SecurityStatusNotSatisfied, and a NONE entry reached there gives
    success, both in the state the verification of [pre] left, whatever
    follows in the chain; a verification in [pre] that fails ends the walk
    with its error; and a chain of verifiable entries only succeeds exactly
    when [verify_entries] does, that is when every entry's verification
    returned 0. *)
Theorem authenticate_walks_acl_chain fuel file op pre s :
  Forall verifiable pre →
  (∀ entry post s',
     sc_file_get_acl_entry file op = pre ++ entry :: post →
     method entry = SC_AC_NEVER →
     verify_entries fuel pre s = Ret 0 s' →
     sc_pkcs15init_authenticate fuel file op s
     = Ret SC_ERROR_SECURITY_STATUS_NOT_SATISFIED s') ∧
  (∀ entry post s',
     sc_file_get_acl_entry file op = pre ++ entry :: post →
     method entry = SC_AC_NONE →
     verify_entries fuel pre s = Ret 0 s' →
     sc_pkcs15init_authenticate fuel file op s = Ret 0 s') ∧
  (∀ post r s',
     sc_file_get_acl_entry file op = pre ++ post →
     verify_entries fuel pre s = Ret r s' →
     r ≠ 0 →
     sc_pkcs15init_authenticate fuel file op s = Ret r s') ∧
  (sc_file_get_acl_entry file op = pre →
   sc_pkcs15init_authenticate fuel file op s = verify_entries fuel pre s).
Proof.
  intros Hpre. unfold sc_pkcs15init_authenticate. repeat split.
  - intros entry post s' -> Hm Hv.
    rewrite authenticate_loop_prefix, Hv by done. cbn [Z.eqb authenticate_loop negb].
    rewrite Hm, Z.eqb_refl. reflexivity.
  - intros entry post s' -> Hm Hv.
    rewrite authenticate_loop_prefix, Hv by done. cbn [Z.eqb authenticate_loop negb].
    rewrite Hm, Z.eqb_refl.
    destruct (Z.eqb_spec SC_AC_NONE SC_AC_NEVER) as [Heq|_]; [|reflexivity].
    destruct ac_never_not_none. done.
  - intros post r s' -> Hv Hr.
    rewrite authenticate_loop_prefix, Hv by done.
    apply Z.eqb_neq in Hr. rewrite Hr. reflexivity.
  - intros ->. rewrite <- (app_nil_r pre) at 1.
    rewrite authenticate_loop_prefix by done.
    destruct (verify_entries fuel pre s) as [r s'|h]; [|reflexivity].
    destruct (Z.eqb_spec r 0) as [->|_]; reflexivity.
Qed.

End Authentication.

(** ** What a run adds to the trace *)

Section Traces.
Context `{Constants} `{Library}.

Lemma emits_weaken {A} (P Q : event → Prop) (m : M A) :
  (∀ e, P e → Q e) → emits P m → emits Q m.
Proof.
  intros HPQ Hm s a s' Hrun. destruct (Hm s a s' Hrun) as (t & Ht & HP).
  exists t. split; [done|]. eapply Forall_impl; eauto.
Qed.

Lemma emits_ret {A} P (a : A) : emits P (mret a).
Proof. intros s a' s' [= <- <-]. exists []. by rewrite app_nil_r. Qed.

Lemma emits_throw {A} P (h : halt) : emits P (mthrow h : M A).
Proof. intros s a s' [=]. Qed.

Lemma emits_bind {A B} P (m : M A) (f : A → M B) :
  emits P m → (∀ a, emits P (f a)) → emits P (m ≫= f).
Proof.
  intros Hm Hf s b s' Hrun. rewrite bind_run in Hrun.
  destruct (m s) as [a s1|h] eqn:Hms; [|done].
  destruct (Hm _ _ _ Hms) as (t1 & Ht1 & HP1).
  destruct (Hf a _ _ _ Hrun) as (t2 & Ht2 & HP2).
  exists (t1 ++ t2). split.
  - by rewrite Ht2, Ht1, app_assoc.
  - by apply Forall_app.
Qed.

Lemma emits_get_state P : emits P get_state.
Proof. intros s a s' [= <- <-]. exists []. by rewrite app_nil_r. Qed.

Lemma emits_put_world P w : emits P (put_world w).
Proof. intros s a s' [= <- <-]. exists []. by rewrite app_nil_r. Qed.

Lemma emits_put_profile P pro : emits P (put_profile pro).
Proof. intros s a s' [= <- <-]. exists []. by rewrite app_nil_r. Qed.

Lemma emits_put_p15card P p15 : emits P (put_p15card p15).
Proof. intros s a s' [= <- <-]. exists []. by rewrite app_nil_r. Qed.

Lemma emits_put_seeded P b : emits P (put_seeded b).
Proof. intros s a s' [= <- <-]. exists []. by rewrite app_nil_r. Qed.

Lemma emits_log (P : event → Prop) e : P e → emits P (log e).
Proof. intros He s a s' [= <- <-]. exists [e]. split; [done|]. by constructor. Qed.

Lemma emits_call {A} (P : event → Prop) (f : world → A * world) ev :
  (∀ a, P (ev a)) → emits P (call f ev).
Proof.
  intros Hev. unfold call. apply emits_bind; [apply emits_get_state|].
  intros s. destruct (f (st_world s)) as [a w].
  apply emits_bind; [apply emits_put_world|]. intros _.
  apply emits_bind; [by apply emits_log|]. intros _. apply emits_ret.
Qed.

End Traces.

Create HintDb emits.

(** Splits a goal [emits P m] along the structure of [m]; the lemmas about
    the engine's functions are taken from the hint database. *)
Ltac emits_step :=
  first
    [ solve [auto with emits nocore]
    | apply emits_ret
    | apply emits_throw
    | apply emits_get_state
    | apply emits_put_world
    | apply emits_put_profile
    | apply emits_put_p15card
    | apply emits_put_seeded
    | apply emits_log; (done || (cbn; tauto))
    | apply emits_call; intros; (done || (cbn; tauto))
    | lazymatch goal with
      | |- emits _ (mbind _ _) => apply emits_bind; [|intros ?]
      | |- emits _ (if ?c then _ else _) => destruct c
      | |- emits _ (match ?x with _ => _ end) => destruct x
      end ].

Ltac emits_auto := repeat emits_step.

Section EngineTraces.
Context `{Constants} `{Library}.

Lemma auth_event_is_file_event e : is_auth_event e → is_file_event e.
Proof. by destruct e. Qed.

Lemma emits_get_pin P i : emits P (get_pin i).
Proof. unfold get_pin. emits_auto. Qed.

Lemma emits_put_pin P i info : emits P (put_pin i info).
Proof. unfold put_pin. emits_auto. Qed.

#[local] Hint Resolve emits_get_pin emits_put_pin : emits.

Lemma emits_read_one_pin_loop fuel i n prompt :
  emits is_auth_event (read_one_pin_loop fuel i n prompt).
Proof.
  induction fuel as [|fuel IH]; cbn [read_one_pin_loop]; unfold getpass, error; emits_auto.
Qed.

#[local] Hint Resolve emits_read_one_pin_loop : emits.

Lemma emits_read_one_pin fuel i n : emits is_auth_event (read_one_pin fuel i n).
Proof. unfold read_one_pin. emits_auto. Qed.

#[local] Hint Resolve emits_read_one_pin : emits.

Lemma emits_do_verify_pin fuel type ref : emits is_auth_event (do_verify_pin fuel type ref).
Proof. unfold do_verify_pin, sc_verify, error. emits_auto. Qed.

#[local] Hint Resolve emits_do_verify_pin : emits.

Lemma emits_authenticate_loop fuel r acl : emits is_auth_event (authenticate_loop fuel r acl).
Proof.
  revert r. induction acl as [|entry next IH]; intros r; cbn [authenticate_loop]; emits_auto.
Qed.

Lemma emits_authenticate fuel file op :
  emits is_file_event (sc_pkcs15init_authenticate fuel file op).
Proof.
  eapply emits_weaken; [apply auth_event_is_file_event|apply emits_authenticate_loop].
Qed.

Lemma emits_select_file path : emits is_file_event (sc_select_file path).
Proof. unfold sc_select_file. emits_auto. Qed.

#[local] Hint Resolve emits_authenticate emits_select_file : emits.

Lemma emits_do_select_parent create_file file :
  (∀ f, emits is_file_event (create_file f)) →
  emits is_file_event (do_select_parent create_file file).
Proof. intros Hrec. unfold do_select_parent. emits_auto. Qed.

Lemma emits_create_file fuel file : emits is_file_event (sc_pkcs15init_create_file fuel file).
Proof.
  revert file. induction fuel as [|fuel IH]; intros file; cbn [sc_pkcs15init_create_file].
  - emits_auto.
  - apply emits_bind; [by apply emits_do_select_parent|]. intros [r parent].
    unfold sc_create_file. emits_auto.
Qed.

#[local] Hint Resolve emits_create_file : emits.

Lemma emits_update_file_present fuel file data :
  emits is_file_event (update_file_present fuel file data).
Proof. unfold update_file_present, sc_update_binary. emits_auto. Qed.

#[local] Hint Resolve emits_update_file_present : emits.

Lemma emits_update_file fuel file data :
  emits is_file_event (sc_pkcs15init_update_file fuel file data).
Proof. unfold sc_pkcs15init_update_file. emits_auto. Qed.

#[local] Hint Resolve emits_update_file : emits.

Lemma file_event_is_quiet e : is_file_event e → is_quiet e.
Proof. by destruct e. Qed.

Lemma allocation_is_quiet e : is_allocation e → is_quiet e.
Proof. by destruct e. Qed.

Lemma emits_update_file_quiet fuel file data :
  emits is_quiet (sc_pkcs15init_update_file fuel file data).
Proof. eapply emits_weaken; [apply file_event_is_quiet|apply emits_update_file]. Qed.

#[local] Hint Resolve emits_update_file_quiet : emits.

Lemma emits_update_odf fuel : emits is_quiet (sc_pkcs15init_update_odf fuel).
Proof. unfold sc_pkcs15init_update_odf. emits_auto. Qed.

#[local] Hint Resolve emits_update_odf : emits.

Lemma emits_update_df_loop fuel df_type todo j r :
  emits is_quiet (update_df_loop fuel df_type todo j r).
Proof.
  revert j r. induction todo as [|todo IH]; intros j r; cbn [update_df_loop]; emits_auto.
Qed.

#[local] Hint Resolve emits_update_df_loop : emits.

Lemma emits_update_df fuel df_type : emits is_quiet (sc_pkcs15init_update_df fuel df_type).
Proof. unfold sc_pkcs15init_update_df, update_df_segments. emits_auto. Qed.

#[local] Hint Resolve emits_update_df : emits.

Lemma emits_finish_new_key type index df_type keyargs out :
  emits is_allocation (finish_new_key type index df_type keyargs out).
Proof. unfold finish_new_key, allocate_file, sc_pkcs15_add_object. emits_auto. Qed.

#[local] Hint Resolve emits_finish_new_key : emits.

Lemma emits_setup_key keyargs is_private :
  emits is_allocation (sc_pkcs15init_setup_key keyargs is_private).
Proof.
  unfold sc_pkcs15init_setup_key, sc_pkcs15init_new_private_key,
    sc_pkcs15init_new_public_key.
  emits_auto.
Qed.

Lemma emits_setup_key_quiet keyargs is_private :
  emits is_quiet (sc_pkcs15init_setup_key keyargs is_private).
Proof. eapply emits_weaken; [apply allocation_is_quiet|apply emits_setup_key]. Qed.

#[local] Hint Resolve emits_setup_key_quiet : emits.

Lemma emits_store_private_key fuel keyargs :
  emits is_quiet (sc_pkcs15init_store_private_key fuel keyargs).
Proof.
  unfold sc_pkcs15init_store_private_key, store_rsa, store_dsa,
    set_registered_modulus_length.
  emits_auto.
Qed.

#[local] Hint Resolve emits_store_private_key : emits.


End EngineTraces.

(** ** The file system navigator *)

Section Navigator.
Context `{Constants} `{Library}.

Lemma bind_Ret_inv {A B} (m : M A) (f : A → M B) s b s' :
  (m ≫= f) s = Ret b s' → ∃ a s1, m s = Ret a s1 ∧ f a s1 = Ret b s'.
Proof. rewrite bind_run. destruct (m s) as [a s1|h]; [eauto|done]. Qed.

Lemma call_run {A} (f : world → A * world) ev s :
  call f ev s = Ret (f (st_world s)).1 (after_call s (f (st_world s)).2 (ev (f (st_world s)).1)).
Proof. unfold call. rewrite get_state_run. by destruct (f (st_world s)). Qed.

Lemma sc_select_file_run path s r parent w :
  card_select_file path (st_world s) = (r, parent, w) →
  sc_select_file path s = Ret (r, parent) (after_call s w (EvSelectFile path r)).
Proof. intros Hsel. unfold sc_select_file. rewrite call_run, Hsel. reflexivity. Qed.

Lemma sc_select_file_inv path s a s' :
  sc_select_file path s = Ret a s' →
  ∃ w, card_select_file path (st_world s) = (a.1, a.2, w) ∧
       s' = after_call s w (EvSelectFile path a.1).
Proof.
  unfold sc_select_file. rewrite call_run.
  destruct (card_select_file path (st_world s)) as [[r parent] w].
  intros [= <- <-]. by exists w.
Qed.

Lemma sc_create_file_inv file s r s' :
  sc_create_file file s = Ret r s' → st_trace s' = st_trace s ++ [EvCreateFile file r].
Proof. unfold sc_create_file. rewrite call_run. by intros [= <- <-]. Qed.

Lemma sc_update_binary_inv idx buf s r s' :
  sc_update_binary idx buf s = Ret r s' →
  st_trace s' = st_trace s ++ [EvUpdateBinary idx buf r].
Proof. unfold sc_update_binary. rewrite call_run. by intros [= <- <-]. Qed.

Lemma sc_pkcs15init_create_file_unfold fuel file :
  sc_pkcs15init_create_file (S fuel) file =
  ('(r, parent) ← do_select_parent (sc_pkcs15init_create_file fuel) file;
   create_in_parent (S fuel) file r parent).
Proof. reflexivity. Qed.


(** A creation that succeeds ends with the creation of the file on the
    card. *)
Lemma create_file_ends_with_creation fuel file s r s' :
  sc_pkcs15init_create_file fuel file s = Ret r s' → 0 ≤ r →
  ∃ t, st_trace s' = st_trace s ++ t ++ [EvCreateFile file r] ∧ Forall is_file_event t.
Proof.
  destruct fuel as [|fuel]; [done|]. rewrite sc_pkcs15init_create_file_unfold.
  intros Hrun Hr. apply bind_Ret_inv in Hrun as ([r0 parent] & s1 & Hsel & Hrun).
  destruct (emits_do_select_parent _ file (emits_create_file fuel) _ _ _ Hsel)
    as (t1 & Ht1 & HP1).
  unfold create_in_parent in Hrun.
  destruct (r0 <? 0) eqn:Hr0.
  { injection Hrun as <- <-. lia. }
  destruct parent as [parent|]; [|done].
  apply bind_Ret_inv in Hrun as (r1 & s2 & Hauth & Hrun).
  destruct (emits_authenticate _ _ _ _ _ _ Hauth) as (t2 & Ht2 & HP2).
  destruct (r1 <? 0) eqn:Hr1.
  { injection Hrun as <- <-. lia. }
  apply sc_create_file_inv in Hrun. exists (t1 ++ t2). split.
  - rewrite Hrun, Ht2, Ht1. by rewrite <- !app_assoc.
  - by apply Forall_app.
Qed.

Lemma file_not_found_negative : SC_ERROR_FILE_NOT_FOUND < 0.
Proof. apply sc_errors_are_negative. Qed.



Lemma set_file_size_same file : set_file_size file (file_size file) = file.
Proof. by destruct file. Qed.

(** C3.  [sc_pkcs15init_update_file] first selects the target.  When that
    succeeds it authenticates the file's UPDATE ACL and, unless that
    failed, writes the whole payload at offset 0.  When the selection fails
    with FileNotFound, it raises the declared size to the payload length if
    it was smaller (and leaves a larger one alone), creates the file so
    sized with [sc_pkcs15init_create_file], selects it again, and goes on
    as before, stopping at the first step that fails.  A run that succeeds
    after FileNotFound has made exactly these calls in this order: the
    failed selection, the calls of the creation ending with the creation of
    the resized file on the card, the second selection, the verifications
    of the ACL, and the write. *)
Theorem update_file_creates_missing_file fuel file data s r0 parent w :
  card_select_file (file_path file) (st_world s) = (r0, parent, w) →
  let datalen := Z.of_nat (length data) in
  let sized := set_file_size file (Z.max (file_size file) datalen) in
  (0 ≤ r0 →
   sc_pkcs15init_update_file fuel file data s =
     (sc_select_file (file_path file);;
      r ← sc_pkcs15init_authenticate fuel file SC_AC_OP_UPDATE;
      if r >=? 0 then r ← sc_update_binary 0 data; mret (r, file)
      else mret (r, file)) s) ∧
  (r0 = SC_ERROR_FILE_NOT_FOUND →
   datalen ≤ file_size sized ∧
   (datalen ≤ file_size file → sized = file) ∧
   sc_pkcs15init_update_file fuel file data s =
     (sc_select_file (file_path file);;
      r ← sc_pkcs15init_create_file fuel sized;
      if r <? 0 then mret (r, sized)
      else
        '(r, _) ← sc_select_file (file_path file);
        if r <? 0 then mret (r, sized)
        else
          r ← sc_pkcs15init_authenticate fuel sized SC_AC_OP_UPDATE;
          if r >=? 0 then r ← sc_update_binary 0 data; mret (r, sized)
          else mret (r, sized)) s ∧
   (∀ r left s',
      sc_pkcs15init_update_file fuel file data s = Ret (r, left) s' → 0 ≤ r →
      left = sized ∧
      ∃ t1 r1 r2 t2,
        st_trace s' =
          st_trace s ++ [EvSelectFile (file_path file) SC_ERROR_FILE_NOT_FOUND] ++ t1
          ++ [EvCreateFile sized r1; EvSelectFile (file_path file) r2] ++ t2
          ++ [EvUpdateBinary 0 data r]
        ∧ 0 ≤ r1 ∧ 0 ≤ r2 ∧ Forall is_file_event t1 ∧ Forall is_auth_event t2)).
Proof.
  intros Hsel datalen sized. split.
  { intros Hr0. unfold sc_pkcs15init_update_file, update_file_present.
    rewrite !bind_run, (sc_select_file_run _ _ _ _ _ Hsel).
    apply Z.ltb_ge in Hr0. rewrite Hr0. reflexivity. }
  intros ->. pose proof file_not_found_negative as Hfnf.
  assert (Hsized : (if file_size file <? datalen then set_file_size file datalen else file)
                   = sized).
  { unfold sized. destruct (Z.ltb_spec (file_size file) datalen).
    - by rewrite Z.max_r by lia.
    - by rewrite Z.max_l, set_file_size_same by lia. }
  assert (Hrun : sc_pkcs15init_update_file fuel file data s =
    (sc_select_file (file_path file);;
     r ← sc_pkcs15init_create_file fuel sized;
     if r <? 0 then mret (r, sized)
     else
       '(r, _) ← sc_select_file (file_path file);
       if r <? 0 then mret (r, sized)
       else
         r ← sc_pkcs15init_authenticate fuel sized SC_AC_OP_UPDATE;
         if r >=? 0 then r ← sc_update_binary 0 data; mret (r, sized)
         else mret (r, sized)) s).
  { unfold sc_pkcs15init_update_file. fold datalen.
    rewrite !bind_run, (sc_select_file_run _ _ _ _ _ Hsel).
    apply Z.ltb_lt in Hfnf. rewrite Hfnf, Z.eqb_refl, Hsized. cbn [negb].
    rewrite !bind_run.
    destruct (sc_pkcs15init_create_file fuel sized _) as [r1 s1|h]; [|reflexivity].
    destruct (r1 <? 0); [reflexivity|]. cbn [file_path sized set_file_size].
    rewrite !bind_run.
    destruct (sc_select_file (file_path file) s1) as [[r2 p2] s2|h]; [|reflexivity].
    destruct (r2 <? 0); reflexivity. }
  split; [cbn; lia|]. split.
  { intros Hle. unfold sized. by rewrite Z.max_l, set_file_size_same by lia. }
  split; [exact Hrun|].
  intros r left s' Hret Hr. rewrite Hrun in Hret. clear Hrun Hsized.
  rewrite bind_run, (sc_select_file_run _ _ _ _ _ Hsel) in Hret.
  apply bind_Ret_inv in Hret as (r1 & s1 & Hcreate & Hret).
  destruct (Z.ltb_spec r1 0) as [Hr1|Hr1].
  { injection Hret as <- <- <-. lia. }
  apply create_file_ends_with_creation in Hcreate as (t1 & Ht1 & HP1); [|done].
  apply bind_Ret_inv in Hret as ([r2 p2] & s2 & Hsel2 & Hret).
  apply sc_select_file_inv in Hsel2 as (w2 & _ & ->). cbn [fst] in Hret.
  destruct (Z.ltb_spec r2 0) as [Hr2|Hr2].
  { injection Hret as <- <- <-. lia. }
  apply bind_Ret_inv in Hret as (r3 & s3 & Hauth & Hret).
  destruct (emits_authenticate_loop _ _ _ _ _ _ Hauth) as (t2 & Ht2 & HP2).
  destruct (r3 >=? 0) eqn:Hr3.
  - apply bind_Ret_inv in Hret as (r4 & s4 & Hupd & Hret).
    injection Hret as <- <- <-. split; [reflexivity|].
    apply sc_update_binary_inv in Hupd.
    exists t1, r1, r2, t2. split; [|done].
    rewrite Hupd, Ht2. cbn [after_call st_trace]. rewrite Ht1. cbn [after_call st_trace].
    by rewrite <- !app_assoc.
  - injection Hret as <- <- <-. lia.
Qed.

End Navigator.

(** ** The directory writer *)

Section DirectoryWriter.
Context `{Constants} `{Library}.




End DirectoryWriter.

(** ** The key object manager *)

Section KeyObjects.
Context `{Constants} `{Library}.

Lemma copy_template_auth_id keyargs template dflt index :
  obj_auth_id (kt_pkcs15_obj (copy_template keyargs template dflt index))
  = obj_auth_id (kt_pkcs15_obj template).
Proof.
  unfold copy_template, assign_label.
  destruct (ka_label keyargs); [reflexivity|]. by case_decide.
Qed.

Lemma copy_template_id keyargs template dflt index :
  id (kt_pkcs15 (copy_template keyargs template dflt index))
  = assign_id (ka_id keyargs) (id (kt_pkcs15 template)) index.
Proof.
  unfold copy_template, assign_label.
  destruct (ka_label keyargs); [reflexivity|]. by case_decide.
Qed.

Lemma assign_id_default template index :
  assign_id [] (id (kt_pkcs15 template)) index = add_to_last_byte (default_id template) index.
Proof. reflexivity. Qed.

Lemma add_to_last_byte_shape base index :
  base ≠ [] →
  add_to_last_byte base index = removelast base ++ [(List.last base 0 + index) mod 256].
Proof.
  intros Hbase. unfold add_to_last_byte.
  destruct (exists_last Hbase) as (front & b & ->).
  rewrite removelast_last, last_last, length_app. cbn [length].
  replace (length front + 1 - 1)%nat with (length front + 0)%nat by lia.
  by rewrite alter_app_r.
Qed.

Lemma default_id_nonempty template : default_id template ≠ [].
Proof.
  unfold default_id. destruct (Nat.eqb_spec (length (id (kt_pkcs15 template))) 0) as [|Hlen].
  - done.
  - intros Heq. by rewrite Heq in Hlen.
Qed.

(** Registering an object adds it, and nothing else, to the objects the
    card structure holds. *)
Lemma registered_objects_add p15 df_type file_nr obj :
  registered_objects
    (set_df p15 df_type
       (set_df_obj (get_df p15 df_type) (df_obj (get_df p15 df_type) ++ [(file_nr, obj)])))
  ≡ₚ obj :: registered_objects p15.
Proof.
  unfold registered_objects, set_df, get_df. cbn [p15_df].
  destruct (p15_df p15 !! df_type) as [df|] eqn:Hdf; cbn [default].
  - rewrite <- insert_delete_eq.
    rewrite map_to_list_insert by apply lookup_delete_eq.
    rewrite <- (map_to_list_delete _ _ _ Hdf).
    cbn [mbind list_bind set_df_obj df_obj].
    rewrite fmap_app. cbn [fmap list_fmap snd].
    rewrite <- app_assoc. cbn [app]. by rewrite <- Permutation_middle.
  - rewrite map_to_list_insert by done.
    cbn [mbind list_bind set_df_obj df_obj empty_df app fmap list_fmap snd]. done.
Qed.

Lemma sc_pkcs15_get_objects_add p15 df_type file_nr obj type :
  sc_pkcs15_get_objects
    (set_df p15 df_type
       (set_df_obj (get_df p15 df_type) (df_obj (get_df p15 df_type) ++ [(file_nr, obj)])))
    type
  = sc_pkcs15_get_objects p15 type + (if decide (obj_type obj = type) then 1 else 0).
Proof.
  unfold sc_pkcs15_get_objects. rewrite registered_objects_add, filter_cons.
  case_decide; cbn [length]; lia.
Qed.

Lemma get_df_set_df p15 df_type df : get_df (set_df p15 df_type df) df_type = df.
Proof. unfold get_df, set_df. cbn [p15_df]. by rewrite lookup_insert_eq. Qed.

(** Whatever the last steps of a constructor return, they leave the
    identifier and the ACL of the object as they found them, and of the
    request they change the identifier only. *)
Lemma finish_new_key_inv type index df_type keyargs out s r k out' s' :
  finish_new_key type index df_type keyargs out s = Ret (r, k, out') s' →
  id (kt_pkcs15 out') = id (kt_pkcs15 out) ∧ kt_key_acl out' = kt_key_acl out ∧
  ka_onboard_keygen k = ka_onboard_keygen keyargs ∧ ka_pkey k = ka_pkey keyargs.
Proof.
  unfold finish_new_key.
  destruct (length (id (kt_pkcs15 out)) =? 0)%nat; [by intros [= <- <- <- <-]|].
  destruct (usage (kt_pkcs15 out) =? 0); [by intros [= <- <- <- <-]|].
  intros Hrun. apply bind_Ret_inv in Hrun as ([ra file] & s1 & _ & Hrun).
  destruct (ra <? 0); [by injection Hrun as <- <- <- <-|].
  destruct file as [file|]; [|done].
  apply bind_Ret_inv in Hrun as (r1 & s2 & _ & Hrun).
  destruct (negb (r1 =? 0)); by injection Hrun as <- <- <- <-.
Qed.

(** When they succeed, a file was allocated and the object, bound to it,
    was added at the end of the directory file; nothing else changed. *)
Lemma finish_new_key_ok type index df_type keyargs out s r k out' s' :
  finish_new_key type index df_type keyargs out s = Ret (r, k, out') s' → 0 ≤ r →
  ∃ ra file w,
    ops_allocate_file (st_profile s) type index (st_world s) = (ra, Some file, w) ∧
    r = 0 ∧ out' = set_kt_storage out file type ∧
    k = set_ka_id keyargs (id (kt_pkcs15 out)) ∧
    s' = {| st_world := w; st_profile := st_profile s;
            st_p15card :=
              set_df (st_p15card s) df_type
                (set_df_obj (get_df (st_p15card s) df_type)
                   (df_obj (get_df (st_p15card s) df_type) ++ [(0%nat, kt_pkcs15_obj out')]));
            st_seeded := st_seeded s;
            st_trace := st_trace s ++ [EvAllocateFile type index ra] |}.
Proof.
  unfold finish_new_key. intros Hrun Hr.
  destruct sc_errors_are_negative as (_ & _ & _ & Hinv & _).
  destruct (length (id (kt_pkcs15 out)) =? 0)%nat; [injection Hrun as <- <- <- <-; lia|].
  destruct (usage (kt_pkcs15 out) =? 0); [injection Hrun as <- <- <- <-; lia|].
  unfold allocate_file in Hrun. rewrite bind_run, get_state_run, call_run in Hrun.
  destruct (ops_allocate_file (st_profile s) type index (st_world s)) as [[ra file] w].
  cbn [fst snd] in Hrun.
  destruct (Z.ltb_spec ra 0); [injection Hrun as <- <- <- <-; lia|].
  destruct file as [file|]; [|done].
  unfold sc_pkcs15_add_object in Hrun. rewrite bind_run, get_state_run in Hrun.
  cbn in Hrun. injection Hrun as <- <- <- <-.
  by exists ra, file, w.
Qed.

Lemma new_private_key_unfold type keyargs s template :
  select_template sc_profile_find_private_key prkey_list (st_profile s) keyargs
    = Some template →
  let auth := obj_auth_id (kt_pkcs15_obj template) in
  let index := sc_pkcs15_get_objects (st_p15card s) type in
  let out := copy_template keyargs template "Private Key" index in
  sc_pkcs15init_new_private_key type keyargs s =
    (if negb (length auth =? 0)%nat then
       let '(r, obj) := sc_pkcs15_find_pin_by_auth_id (st_p15card s) auth in
       if r <? 0 then mret (SC_ERROR_OBJECT_NOT_FOUND, keyargs, out)
       else
         match obj_data <$> obj with
         | Some (DataPin pin) =>
             finish_new_key type index SC_PKCS15_PRKDF keyargs
               (set_kt_key_acl out [AclEntry SC_AC_CHV (reference pin)])
         | _ => mthrow Fault
         end
     else finish_new_key type index SC_PKCS15_PRKDF keyargs out) s.
Proof.
  intros Hsel auth index out.
  unfold sc_pkcs15init_new_private_key. rewrite get_state_run, Hsel.
  fold index. fold out. unfold out at 1 2. rewrite !copy_template_auth_id.
  reflexivity.
Qed.

Lemma new_public_key_unfold type keyargs s template :
  select_template sc_profile_find_public_key pubkey_list (st_profile s) keyargs
    = Some template →
  sc_pkcs15init_new_public_key type keyargs s =
    finish_new_key type (sc_pkcs15_get_objects (st_p15card s) type) SC_PKCS15_PUKDF keyargs
      (copy_template keyargs template "Public Key"
         (sc_pkcs15_get_objects (st_p15card s) type)) s.
Proof.
  intros Hsel. unfold sc_pkcs15init_new_public_key. by rewrite get_state_run, Hsel.
Qed.

(** C5, amended.  For a private-key template that declares a controlling
    authentication identifier, [sc_pkcs15init_new_private_key] looks the PIN
    up by it.  When the look-up fails the result is ObjectNotFound and the
    state is untouched: no file was allocated, nothing was registered.
    When it finds a PIN, the key's ACL is the one entry that asks for PIN
    verification with that PIN's reference.  A template that declares no
    such identifier is set up without a look-up and without an ACL entry
    of its own. *)
Theorem new_private_key_resolves_pin type keyargs s template :
  select_template sc_profile_find_private_key prkey_list (st_profile s) keyargs
    = Some template →
  let auth := obj_auth_id (kt_pkcs15_obj template) in
  let index := sc_pkcs15_get_objects (st_p15card s) type in
  let out := copy_template keyargs template "Private Key" index in
  (∀ r obj, auth ≠ [] →
     sc_pkcs15_find_pin_by_auth_id (st_p15card s) auth = (r, obj) → r < 0 →
     sc_pkcs15init_new_private_key type keyargs s
     = Ret (SC_ERROR_OBJECT_NOT_FOUND, keyargs, out) s) ∧
  (∀ r obj pin, auth ≠ [] →
     sc_pkcs15_find_pin_by_auth_id (st_p15card s) auth = (r, Some obj) → 0 ≤ r →
     obj_data obj = DataPin pin →
     sc_pkcs15init_new_private_key type keyargs s
     = finish_new_key type index SC_PKCS15_PRKDF keyargs
         (set_kt_key_acl out [AclEntry SC_AC_CHV (reference pin)]) s ∧
     ∀ r' k out' s',
       sc_pkcs15init_new_private_key type keyargs s = Ret (r', k, out') s' →
       kt_key_acl out' = [AclEntry SC_AC_CHV (reference pin)]) ∧
  (auth = [] →
   sc_pkcs15init_new_private_key type keyargs s
   = finish_new_key type index SC_PKCS15_PRKDF keyargs out s ∧
   kt_key_acl out = kt_key_acl template).
Proof.
  intros Hsel auth index out.
  rewrite (new_private_key_unfold _ _ _ _ Hsel). fold auth index out.
  split; [|split].
  - intros r obj Hauth Hfind Hr.
    destruct auth; [done|]. cbn [length Nat.eqb negb].
    rewrite Hfind. apply Z.ltb_lt in Hr. by rewrite Hr.
  - intros r obj pin Hauth Hfind Hr Hpin.
    destruct auth; [done|]. cbn [length Nat.eqb negb].
    rewrite Hfind. apply Z.ltb_ge in Hr. rewrite Hr. cbn [fmap option_fmap option_map].
    rewrite Hpin. split; [reflexivity|].
    intros r' k out' s' Hrun. by apply finish_new_key_inv in Hrun as (_ & -> & _).
  - intros ->. split; [reflexivity|].
    unfold out, copy_template, assign_label.
    destruct (ka_label keyargs); [reflexivity|]. by case_decide.
Qed.

(** The identifier is fixed before the last steps, and a success adds one
    object of the type and leaves the profile alone. *)
Lemma finish_new_key_issue type index df_type keyargs out s r k out' s' :
  finish_new_key type index df_type keyargs out s = Ret (r, k, out') s' →
  id (kt_pkcs15 out') = id (kt_pkcs15 out) ∧
  (r = 0 →
   st_profile s' = st_profile s ∧
   sc_pkcs15_get_objects (st_p15card s') type = sc_pkcs15_get_objects (st_p15card s) type + 1).
Proof.
  intros Hrun. split; [by apply finish_new_key_inv in Hrun as (-> & _)|].
  intros ->. apply finish_new_key_ok in Hrun as (ra & file & w & _ & _ & -> & _ & ->); [|done].
  cbn [st_profile st_p15card]. split; [reflexivity|].
  rewrite sc_pkcs15_get_objects_add. cbn [set_kt_storage kt_pkcs15_obj obj_type].
  by rewrite decide_True.
Qed.

Lemma new_private_key_issue type keyargs template s r k out s' :
  ka_id keyargs = [] →
  select_template sc_profile_find_private_key prkey_list (st_profile s) keyargs
    = Some template →
  sc_pkcs15init_new_private_key type keyargs s = Ret (r, k, out) s' →
  id (kt_pkcs15 out)
    = add_to_last_byte (default_id template) (sc_pkcs15_get_objects (st_p15card s) type) ∧
  (r = 0 →
   st_profile s' = st_profile s ∧
   sc_pkcs15_get_objects (st_p15card s') type = sc_pkcs15_get_objects (st_p15card s) type + 1).
Proof.
  intros Hid Hsel. rewrite (new_private_key_unfold _ _ _ _ Hsel).
  destruct sc_errors_are_negative as (_ & _ & Hneg & _).
  pose proof (copy_template_id keyargs template "Private Key"
                (sc_pkcs15_get_objects (st_p15card s) type)) as Hcopy.
  rewrite Hid, assign_id_default in Hcopy.
  destruct (negb _).
  - destruct (sc_pkcs15_find_pin_by_auth_id _ _) as [rp obj].
    destruct (rp <? 0).
    { intros [= <- <- <- <-]. split; [done|lia]. }
    destruct obj as [obj|]; [|done]. cbn [fmap option_fmap option_map].
    destruct (obj_data obj) as [| |pin]; [done|done|].
    intros Hrun. apply finish_new_key_issue in Hrun as [Hout Hok].
    split; [by rewrite Hout|done].
  - intros Hrun. apply finish_new_key_issue in Hrun as [Hout Hok].
    split; [by rewrite Hout|done].
Qed.

Lemma new_public_key_issue type keyargs template s r k out s' :
  ka_id keyargs = [] →
  select_template sc_profile_find_public_key pubkey_list (st_profile s) keyargs
    = Some template →
  sc_pkcs15init_new_public_key type keyargs s = Ret (r, k, out) s' →
  id (kt_pkcs15 out)
    = add_to_last_byte (default_id template) (sc_pkcs15_get_objects (st_p15card s) type) ∧
  (r = 0 →
   st_profile s' = st_profile s ∧
   sc_pkcs15_get_objects (st_p15card s') type = sc_pkcs15_get_objects (st_p15card s) type + 1).
Proof.
  intros Hid Hsel. rewrite (new_public_key_unfold _ _ _ _ Hsel).
  pose proof (copy_template_id keyargs template "Public Key"
                (sc_pkcs15_get_objects (st_p15card s) type)) as Hcopy.
  rewrite Hid, assign_id_default in Hcopy.
  intros Hrun. apply finish_new_key_issue in Hrun as [Hout Hok].
  split; [by rewrite Hout|done].
Qed.

(** Requests in a row, each adding one object when it succeeds, get the
    base identifier with the running count added to its last byte. *)
Lemma request_keys_ids new_key (base : list Z) (ready : state → Prop) (count : state → Z) :
  (∀ s r k out s',
     ready s → new_key s = Ret (r, k, out) s' →
     id (kt_pkcs15 out) = add_to_last_byte base (count s) ∧
     (r = 0 → ready s' ∧ count s' = count s + 1)) →
  ∀ n s l s',
    ready s → request_keys new_key n s = Ret l s' → Forall (λ x, x.1 = 0) l →
    l.*2 = (λ i, add_to_last_byte base (count s + Z.of_nat i)) <$> seq 0 n.
Proof.
  intros Hnew. induction n as [|n IH]; intros s l s' Hready Hrun Hok.
  - by injection Hrun as <- <-.
  - cbn [request_keys] in Hrun.
    apply bind_Ret_inv in Hrun as ([[r k] out] & s1 & Hfirst & Hrun).
    apply bind_Ret_inv in Hrun as (rest & s2 & Hrest & Hrun).
    injection Hrun as <- <-.
    apply Forall_cons in Hok as [Hr Hok]. cbn [fst] in Hr.
    destruct (Hnew _ _ _ _ _ Hready Hfirst) as [Hid Hnext].
    destruct (Hnext Hr) as [Hready1 Hcount1].
    cbn [fmap list_fmap seq snd]. f_equal.
    + rewrite Hid. f_equal. lia.
    + change (list_fmap _ _ (λ p, p.2) rest) with rest.*2.
      rewrite (IH _ _ _ Hready1 Hrest Hok), <- fmap_S_seq, <- list_fmap_compose.
      apply list_fmap_ext. intros _ i _. cbn. f_equal. lia.
Qed.

Lemma add_to_last_byte_distinct base c n :
  base ≠ [] → (n ≤ 256)%nat →
  NoDup ((λ i, add_to_last_byte base (c + Z.of_nat i)) <$> seq 0 n).
Proof.
  intros Hbase Hn. apply NoDup_fmap_2_strong; [|apply NoDup_seq].
  intros i j Hi%elem_of_seq Hj%elem_of_seq.
  rewrite !add_to_last_byte_shape by done.
  intros Heq%app_inv_head. injection Heq as Heq.
  revert Heq. Z.to_euclidean_division_equations. lia.
Qed.

Lemma issued_ids_inv new_key n s ids :
  issued_ids new_key n s = Some ids →
  ∃ l s', request_keys new_key n s = Ret l s' ∧ Forall (λ x, x.1 = 0) l ∧ ids = l.*2.
Proof.
  unfold issued_ids. destruct (request_keys new_key n s) as [l s'|]; [|done].
  case_bool_decide; [|done]. intros [= <-]. eauto.
Qed.

(** C4, amended.  A request without an identifier gets the identifier of
    the selected template (or "45" if the template has none) with the count
    of registered objects of the type added to its last byte, the sum cut
    to a byte: all other bytes are the template's, the last one is the sum
    modulo 256.  So [n] successful requests in a row, for private or for
    public keys, get the identifiers for count, count + 1, ..., in this
    order, and these are all different as long as [n] is at most 256. *)
Theorem new_key_identifier_counts_objects type keyargs s :
  ka_id keyargs = [] →
  let count := sc_pkcs15_get_objects (st_p15card s) type in
  let ids_from template n :=
    (λ i, add_to_last_byte (default_id template) (count + Z.of_nat i)) <$> seq 0 n in
  (∀ template,
     select_template sc_profile_find_private_key prkey_list (st_profile s) keyargs
       = Some template →
     (∀ r k out s',
        sc_pkcs15init_new_private_key type keyargs s = Ret (r, k, out) s' →
        id (kt_pkcs15 out) = add_to_last_byte (default_id template) count) ∧
     (∀ n ids,
        issued_ids (sc_pkcs15init_new_private_key type keyargs) n s = Some ids →
        ids = ids_from template n ∧ ((n ≤ 256)%nat → NoDup ids))) ∧
  (∀ template,
     select_template sc_profile_find_public_key pubkey_list (st_profile s) keyargs
       = Some template →
     (∀ r k out s',
        sc_pkcs15init_new_public_key type keyargs s = Ret (r, k, out) s' →
        id (kt_pkcs15 out) = add_to_last_byte (default_id template) count) ∧
     (∀ n ids,
        issued_ids (sc_pkcs15init_new_public_key type keyargs) n s = Some ids →
        ids = ids_from template n ∧ ((n ≤ 256)%nat → NoDup ids))) ∧
  (∀ template index,
     add_to_last_byte (default_id template) index
     = removelast (default_id template)
       ++ [(List.last (default_id template) 0 + index) mod 256]).
Proof.
  intros Hid count ids_from. split; [|split].
  - intros template Hsel. split.
    + intros r k out s' Hrun.
      by apply (new_private_key_issue _ _ _ _ _ _ _ _ Hid Hsel) in Hrun as [-> _].
    + intros n ids (l & s' & Hrun & Hok & ->)%issued_ids_inv.
      assert (l.*2 = ids_from template n) as ->.
      { apply (request_keys_ids (sc_pkcs15init_new_private_key type keyargs)
                 (default_id template)
                 (λ s1, st_profile s1 = st_profile s)
                 (λ s1, sc_pkcs15_get_objects (st_p15card s1) type)) with (s' := s');
          [|done..].
        intros s1 r k out s2 Hpro Hnew. rewrite <- Hpro in Hsel.
        destruct (new_private_key_issue _ _ _ _ _ _ _ _ Hid Hsel Hnew) as [Hout Hnext].
        split; [done|]. intros Hr. destruct (Hnext Hr) as [Hpro2 Hcount2].
        split; [congruence|done]. }
      split; [done|]. intros Hn. by apply add_to_last_byte_distinct, Hn; apply default_id_nonempty.
  - intros template Hsel. split.
    + intros r k out s' Hrun.
      by apply (new_public_key_issue _ _ _ _ _ _ _ _ Hid Hsel) in Hrun as [-> _].
    + intros n ids (l & s' & Hrun & Hok & ->)%issued_ids_inv.
      assert (l.*2 = ids_from template n) as ->.
      { apply (request_keys_ids (sc_pkcs15init_new_public_key type keyargs)
                 (default_id template)
                 (λ s1, st_profile s1 = st_profile s)
                 (λ s1, sc_pkcs15_get_objects (st_p15card s1) type)) with (s' := s');
          [|done..].
        intros s1 r k out s2 Hpro Hnew. rewrite <- Hpro in Hsel.
        destruct (new_public_key_issue _ _ _ _ _ _ _ _ Hid Hsel Hnew) as [Hout Hnext].
        split; [done|]. intros Hr. destruct (Hnext Hr) as [Hpro2 Hcount2].
        split; [congruence|done]. }
      split; [done|]. intros Hn. by apply add_to_last_byte_distinct, Hn; apply default_id_nonempty.
  - intros template index. apply add_to_last_byte_shape, default_id_nonempty.
Qed.

Lemma returns_ret {A} (Q : A → Prop) a : Q a → returns Q (mret a).
Proof. by intros HQ s a' s' [= <- <-]. Qed.

Lemma returns_throw {A} (Q : A → Prop) (h : halt) : returns Q (mthrow h : M A).
Proof. by intros s a s'. Qed.

Lemma returns_bind {A B} (Q : B → Prop) (m : M A) (f : A → M B) :
  (∀ a, returns Q (f a)) → returns Q (m ≫= f).
Proof.
  intros Hf s b s' Hrun. apply bind_Ret_inv in Hrun as (a & s1 & _ & Hrun).
  by eapply Hf.
Qed.


Lemma same_request_refl keyargs : same_request keyargs keyargs.
Proof. done. Qed.

Lemma same_request_set_ka_id keyargs i : same_request keyargs (set_ka_id keyargs i).
Proof. done. Qed.

End KeyObjects.

#[local] Hint Resolve same_request_refl same_request_set_ka_id : core.

(** Splits a goal [returns Q m] along the structure of [m]. *)
Ltac returns_step :=
  first
    [ solve [auto 2 with nocore]
    | apply returns_throw
    | apply returns_ret; cbn; solve [auto]
    | lazymatch goal with
      | |- returns _ (mbind _ _) => apply returns_bind; intros ?
      | |- returns _ (if ?c then _ else _) => destruct c
      | |- returns _ (match ?x with _ => _ end) => destruct x
      end ].

Ltac returns_auto := repeat returns_step.

Section KeyStorage.
Context `{Constants} `{Library}.

Lemma returns_finish_new_key type index df_type keyargs out :
  returns (λ a, same_request keyargs a.1.2) (finish_new_key type index df_type keyargs out).
Proof. unfold finish_new_key. returns_auto. Qed.

Lemma returns_setup_key keyargs is_private :
  returns (λ a, same_request keyargs a.1.2) (sc_pkcs15init_setup_key keyargs is_private).
Proof.
  unfold sc_pkcs15init_setup_key, sc_pkcs15init_new_private_key,
    sc_pkcs15init_new_public_key.
  returns_auto; apply returns_finish_new_key.
Qed.

Lemma below_privacy_bit a x : 0 ≤ a < 65536 → a ≠ Z.lor x 65536.
Proof.
  intros Ha Heq.
  assert (Z.testbit a 16 = true) as Hset
    by (rewrite Heq, Z.lor_spec; apply orb_true_r).
  assert (Z.testbit a 16 = false) as Hclear.
  { apply Z.testbit_false; [lia|]. change (2 ^ 16) with 65536.
    by rewrite Z.div_small by lia. }
  congruence.
Qed.

(** For a public key, the type the set-up picks is of the public class. *)
Lemma key_type_public algorithm type :
  0 ≤ algorithm < 65536 →
  key_type algorithm 0 = Some type →
  Z.land type SC_PKCS15_TYPE_CLASS_MASK = SC_PKCS15_TYPE_PUBKEY.
Proof.
  intros Halg. unfold key_type. rewrite Z.shiftl_0_l, Z.lor_0_r.
  pose proof sc_key_type_classes as (_ & Hrsa & Hdsa).
  destruct (Z.eqb_spec algorithm (Z.lor SC_ALGORITHM_RSA 65536)) as [Heq|_].
  { by apply below_privacy_bit in Heq. }
  destruct (Z.eqb_spec algorithm (Z.lor SC_ALGORITHM_DSA 65536)) as [Heq|_].
  { by apply below_privacy_bit in Heq. }
  destruct (algorithm =? SC_ALGORITHM_RSA); [by intros [= <-]|].
  destruct (algorithm =? SC_ALGORITHM_DSA); [|done].
  destruct SC_PKCS15_TYPE_DSA as [[prkey_dsa pubkey_dsa]|]; [|done].
  intros [= <-]. by eapply Hdsa.
Qed.

(** A public-key set-up that succeeds has allocated a file and added the
    object at the end of the PuKDF, and made no other call. *)
Lemma setup_public_key_ok keyargs s r k info s' :
  0 ≤ ka_algorithm keyargs < 65536 →
  sc_pkcs15init_setup_key keyargs 0 s = Ret (r, k, info) s' → 0 ≤ r →
  df_obj (get_df (st_p15card s') SC_PKCS15_PUKDF)
    = df_obj (get_df (st_p15card s) SC_PKCS15_PUKDF) ++ [(0%nat, kt_pkcs15_obj info)] ∧
  ∃ type index ra, st_trace s' = st_trace s ++ [EvAllocateFile type index ra].
Proof.
  intros Halg Hrun Hr. unfold sc_pkcs15init_setup_key in Hrun.
  destruct sc_errors_are_negative as (_ & Hns & Hnf & _).
  destruct (key_type (ka_algorithm keyargs) 0) as [type|] eqn:Htype;
    [|injection Hrun as <- <- <- <-; lia].
  rewrite get_state_run in Hrun.
  destruct (sc_pkcs15init_find_key _ _ _); [injection Hrun as <- <- <- <-; lia|].
  rewrite (key_type_public _ _ Halg Htype) in Hrun.
  destruct (Z.eqb_spec SC_PKCS15_TYPE_PUBKEY SC_PKCS15_TYPE_PRKEY) as [Heq|_].
  { by destruct sc_key_classes_distinct. }
  rewrite Z.eqb_refl in Hrun.
  unfold sc_pkcs15init_new_public_key in Hrun. rewrite get_state_run in Hrun.
  destruct (select_template _ _ _ _); [|injection Hrun as <- <- <- <-; lia].
  apply finish_new_key_ok in Hrun as (ra & file & w & _ & _ & -> & _ & ->); [|done].
  cbn [st_p15card st_trace]. rewrite get_df_set_df. cbn [df_obj set_df_obj]. eauto.
Qed.

(** C10.  For a key that is not an RSA key, [sc_pkcs15init_store_public_key]
    comes to the key set-up followed by NotSupported: the error of a set-up
    that failed is returned, and after a set-up that succeeded the result
    is NotSupported.  In that case the object has by then been added to the
    in-memory PuKDF, and the only call made is the allocation of the key's
    file: no file was selected, created or written on the card. *)
Theorem store_public_key_registers_then_rejects fuel keyargs pkey s :
  ka_pkey keyargs = Some pkey →
  (∀ rsa, pkey ≠ PKEY_RSA rsa) →
  sc_pkcs15init_store_public_key fuel keyargs s =
    ('(r, k, _) ← sc_pkcs15init_setup_key keyargs 0;
     if r <? 0 then mret (r, k) else mret (SC_ERROR_NOT_SUPPORTED, k)) s ∧
  (∀ r k info s',
     0 ≤ ka_algorithm keyargs < 65536 →
     sc_pkcs15init_setup_key keyargs 0 s = Ret (r, k, info) s' → 0 ≤ r →
     sc_pkcs15init_store_public_key fuel keyargs s = Ret (SC_ERROR_NOT_SUPPORTED, k) s' ∧
     df_obj (get_df (st_p15card s') SC_PKCS15_PUKDF)
       = df_obj (get_df (st_p15card s) SC_PKCS15_PUKDF) ++ [(0%nat, kt_pkcs15_obj info)] ∧
     ∃ type index ra, st_trace s' = st_trace s ++ [EvAllocateFile type index ra]).
Proof.
  intros Hpkey Hother.
  assert (Hrun : sc_pkcs15init_store_public_key fuel keyargs s =
    ('(r, k, _) ← sc_pkcs15init_setup_key keyargs 0;
     if r <? 0 then mret (r, k) else mret (SC_ERROR_NOT_SUPPORTED, k)) s).
  { unfold sc_pkcs15init_store_public_key. rewrite !bind_run.
    destruct (sc_pkcs15init_setup_key keyargs 0 s) as [[[r k] info] s'|h] eqn:Hsetup;
      [|reflexivity].
    destruct (r <? 0); [reflexivity|].
    apply returns_setup_key in Hsetup as (_ & Hsame & _). cbn [fst snd] in Hsame.
    rewrite Hsame, Hpkey. destruct pkey as [rsa| |]; [by destruct (Hother rsa)|done..]. }
  split; [exact Hrun|].
  intros r k info s' Halg Hsetup Hr. split.
  - rewrite Hrun, bind_run, Hsetup. apply Z.ltb_ge in Hr. by rewrite Hr.
  - by eapply setup_public_key_ok.
Qed.

End KeyStorage.

(** ** Key generation and the driver loop *)

Section KeyGeneration.
Context `{Constants} `{Library}.




Lemma not_supported_nonzero : SC_ERROR_NOT_SUPPORTED ≠ 0.
Proof. destruct sc_errors_are_negative as (_ & Hns & _). lia. Qed.


End KeyGeneration.

(** ** The theorems at work on the simulated card *)

Section OnTheSimulatedCard.
Import Sim Scenario.

#[local] Existing Instance constants.
#[local] Existing Instance library.

(** C1 on a chain "PIN 1, NEVER, PIN 2": PIN 1 is verified, the NEVER
    entry fails the operation, PIN 2 is not looked at. *)
Lemma authenticate_stops_at_never_on_sim :
  Forall verifiable [AclEntry SC_AC_CHV 1] ∧
  sc_pkcs15init_authenticate 0 guarded_file SC_AC_OP_UPDATE start
  = Ret SC_ERROR_SECURITY_STATUS_NOT_SATISFIED
        (after_call start blank_card (EvVerify SC_AC_CHV 1 (string_bytes "1234") 0)).
Proof.
  assert (Forall verifiable [AclEntry SC_AC_CHV 1]) as Hpre.
  { repeat constructor; vm_compute; discriminate. }
  split; [exact Hpre|].
  apply (proj1 (authenticate_walks_acl_chain 0 guarded_file SC_AC_OP_UPDATE
                  [AclEntry SC_AC_CHV 1] start Hpre))
    with (entry := AclEntry SC_AC_NEVER 0) (post := [AclEntry SC_AC_CHV 2]);
    vm_compute; reflexivity.
Defined.

(** C8 on a secure-messaging entry with no key in the profile. *)
Lemma missing_pro_key_passes_on_sim :
  SC_AC_PRO ≠ SC_AC_CHV ∧ do_verify_pin 0 SC_AC_PRO 7 start = Ret 0 start.
Proof.
  split; [vm_compute; discriminate|].
  apply do_verify_pin_tolerates_missing_key; vm_compute; (reflexivity || discriminate).
Defined.

(** C9 on a PIN entry whose reference no PIN of the profile has. *)
Lemma missing_pin_passes_on_sim :
  Forall (λ info, eq_u32 (reference (pin_pkcs15 info)) 9 = false) (pin_list (st_profile start))
  ∧ do_verify_pin 0 SC_AC_CHV 9 start = Ret 0 start.
Proof.
  assert (Forall (λ info, eq_u32 (reference (pin_pkcs15 info)) 9 = false)
                 (pin_list (st_profile start))) as Hpins.
  { repeat constructor. }
  split; [exact Hpins|].
  apply (do_verify_pin_tolerates_missing_pin 0 9 start); [reflexivity|reflexivity|exact Hpins].
Defined.



(** C3 on a 5-byte payload for a missing file declared with 2 bytes: the
    file is created with 5. *)
Lemma update_file_sizes_new_file_on_sim :
  card_select_file [0x3F; 0x00; 0x44; 0x01] (st_world start)
    = (SC_ERROR_FILE_NOT_FOUND, None, blank_card) ∧
  sc_pkcs15init_update_file 1 (file_at [0x3F; 0x00; 0x44; 0x01] 2) [1; 2; 3; 4; 5] start
    = Ret (5, file_at [0x3F; 0x00; 0x44; 0x01] 5)
          (state_of (sc_pkcs15init_update_file 1 (file_at [0x3F; 0x00; 0x44; 0x01] 2)
                       [1; 2; 3; 4; 5] start) start) ∧
  ∃ t1 r1 r2 t2,
    st_trace (state_of (sc_pkcs15init_update_file 1 (file_at [0x3F; 0x00; 0x44; 0x01] 2)
                          [1; 2; 3; 4; 5] start) start)
    = st_trace start ++ [EvSelectFile [0x3F; 0x00; 0x44; 0x01] SC_ERROR_FILE_NOT_FOUND] ++ t1
      ++ [EvCreateFile (file_at [0x3F; 0x00; 0x44; 0x01] 5) r1;
          EvSelectFile [0x3F; 0x00; 0x44; 0x01] r2] ++ t2
      ++ [EvUpdateBinary 0 [1; 2; 3; 4; 5] 5]
    ∧ 0 ≤ r1 ∧ 0 ≤ r2 ∧ Forall is_file_event t1 ∧ Forall is_auth_event t2.
Proof.
  assert (sc_pkcs15init_update_file 1 (file_at [0x3F; 0x00; 0x44; 0x01] 2) [1; 2; 3; 4; 5] start
    = Ret (5, file_at [0x3F; 0x00; 0x44; 0x01] 5)
          (state_of (sc_pkcs15init_update_file 1 (file_at [0x3F; 0x00; 0x44; 0x01] 2)
                       [1; 2; 3; 4; 5] start) start)) as Hrun
    by (vm_compute; reflexivity).
  assert (card_select_file [0x3F; 0x00; 0x44; 0x01] (st_world start)
          = (SC_ERROR_FILE_NOT_FOUND, None, blank_card)) as Hsel by reflexivity.
  split; [exact Hsel|]. split; [exact Hrun|].
  apply (proj2 (proj2 (proj2 (proj2
           (update_file_creates_missing_file 1 (file_at [0x3F; 0x00; 0x44; 0x01] 2)
              [1; 2; 3; 4; 5] start SC_ERROR_FILE_NOT_FOUND None blank_card Hsel)
           eq_refl)))
           5 _ _ Hrun).
  done.
Defined.


(** C5 on the spec's scenario: one PIN "CHV1" with reference 1, one
    private-key template that names it; the new key's ACL refers to key
    reference 1, and its identifier is the default one. *)
Lemma private_key_acl_refers_to_chv1 :
  select_template sc_profile_find_private_key prkey_list (st_profile start)
    (rsa_request 0 None) = Some (key_template "prkey" [1]) ∧
  kt_key_acl (value_of (sc_pkcs15init_new_private_key SC_PKCS15_TYPE_PRKEY_RSA
                          (rsa_request 0 None) start)
                (0, rsa_request 0 None, zero_key_template)).2
    = [AclEntry SC_AC_CHV 1] ∧
  id (kt_pkcs15 (value_of (sc_pkcs15init_new_private_key SC_PKCS15_TYPE_PRKEY_RSA
                             (rsa_request 0 None) start)
                   (0, rsa_request 0 None, zero_key_template)).2)
    = [0x45].
Proof.
  assert (select_template sc_profile_find_private_key prkey_list (st_profile start)
            (rsa_request 0 None) = Some (key_template "prkey" [1])) as Hsel by reflexivity.
  assert (sc_pkcs15_find_pin_by_auth_id (st_p15card start) [1] = (0, Some chv1_object))
    as Hfind by reflexivity.
  assert (sc_pkcs15init_new_private_key SC_PKCS15_TYPE_PRKEY_RSA (rsa_request 0 None) start
          = Ret (value_of (sc_pkcs15init_new_private_key SC_PKCS15_TYPE_PRKEY_RSA
                             (rsa_request 0 None) start)
                   (0, rsa_request 0 None, zero_key_template))
                (state_of (sc_pkcs15init_new_private_key SC_PKCS15_TYPE_PRKEY_RSA
                             (rsa_request 0 None) start) start)) as Hrun
    by (vm_compute; reflexivity).
  split; [exact Hsel|]. split; [|vm_compute; reflexivity].
  destruct (value_of _ _) as [[r k] out] in Hrun |- *.
  apply (proj2 (proj1 (proj2
           (new_private_key_resolves_pin SC_PKCS15_TYPE_PRKEY_RSA (rsa_request 0 None)
              start (key_template "prkey" [1]) Hsel))
           0 chv1_object chv1_info ltac:(done) Hfind ltac:(done) eq_refl) r k out _ Hrun).
Defined.

(** C5 as stated fails on a template that declares no controlling
    identifier: no PIN is found for it, and the key is set up all the
    same (result 0, a file allocated, the object registered). *)
Lemma unprotected_template_is_storable :
  ¬ unresolvable_pin_is_not_storable ∧
  (value_of (sc_pkcs15init_new_private_key SC_PKCS15_TYPE_PRKEY_RSA
               (rsa_request 0 None) open_start)
     (1, rsa_request 0 None, zero_key_template)).1.1 = 0.
Proof.
  split; [|vm_compute; reflexivity].
  intros Hclaim.
  assert ((sc_pkcs15_find_pin_by_auth_id (st_p15card open_start)
             (obj_auth_id (kt_pkcs15_obj (key_template "prkey" [])))).1 < 0) as Hnone
    by (vm_compute; reflexivity).
  assert (select_template sc_profile_find_private_key prkey_list (st_profile open_start)
            (rsa_request 0 None) = Some (key_template "prkey" [])) as Hsel by reflexivity.
  destruct (Hclaim SC_PKCS15_TYPE_PRKEY_RSA (rsa_request 0 None) open_start
              (key_template "prkey" []) Hsel Hnone) as [out Hout].
  vm_compute in Hout. discriminate Hout.
Qed.

(** C4 on three requests in a row: 45, 46, 47. *)
Lemma three_private_keys_on_sim :
  ka_id (rsa_request 0 None) = [] ∧
  issued_ids (sc_pkcs15init_new_private_key SC_PKCS15_TYPE_PRKEY_RSA (rsa_request 0 None))
    3 start = Some [[0x45]; [0x46]; [0x47]] ∧
  NoDup [[0x45]; [0x46]; [0x47]].
Proof.
  assert (issued_ids (sc_pkcs15init_new_private_key SC_PKCS15_TYPE_PRKEY_RSA
                        (rsa_request 0 None)) 3 start
          = Some [[0x45]; [0x46]; [0x47]]) as Hids by (vm_compute; reflexivity).
  assert (select_template sc_profile_find_private_key prkey_list (st_profile start)
            (rsa_request 0 None) = Some (key_template "prkey" [1])) as Hsel by reflexivity.
  split; [reflexivity|]. split; [exact Hids|].
  apply (proj2 (proj2 (proj1
           (new_key_identifier_counts_objects SC_PKCS15_TYPE_PRKEY_RSA (rsa_request 0 None)
              start eq_refl)
           (key_template "prkey" [1]) Hsel) 3%nat _ Hids)).
  lia.
Defined.

(** C4 as stated fails at the 257th request in a row: it gets the
    identifier of the first, 45. *)
Lemma key_257_repeats_identifier : ¬ sequential_keys_get_distinct_ids.
Proof.
  intros Hclaim.
  destruct (issued_ids (sc_pkcs15init_new_private_key SC_PKCS15_TYPE_PRKEY_RSA
                          (rsa_request 0 None)) 257 open_start) as [ids|] eqn:Hids;
    [|by vm_compute in Hids].
  pose proof (Hclaim 257%nat SC_PKCS15_TYPE_PRKEY_RSA (rsa_request 0 None) open_start ids
                eq_refl Hids) as Hnodup.
  assert (ids !! 0%nat = Some [0x45] ∧ ids !! 256%nat = Some [0x45]) as [Hfirst Hlast].
  { revert Hids. vm_compute. intros [= <-]. split; reflexivity. }
  pose proof (NoDup_lookup _ _ _ _ Hnodup Hfirst Hlast). done.
Qed.

(** C10 on the DSA key the driver generated: NotSupported, with the
    object in the PuKDF and one call made, the allocation. *)
Lemma dsa_public_key_registered_then_rejected :
  ka_pkey dsa_request = Some (PKEY_DSA (DsaKey [1024])) ∧
  sc_pkcs15init_store_public_key 1 dsa_request start
    = Ret (SC_ERROR_NOT_SUPPORTED, set_ka_id dsa_request [0x45])
          (state_of (sc_pkcs15init_setup_key dsa_request 0 start) start) ∧
  length (df_obj (get_df (st_p15card (state_of (sc_pkcs15init_setup_key dsa_request 0 start)
                                        start)) SC_PKCS15_PUKDF)) = 1%nat.
Proof.
  assert (∀ rsa, PKEY_DSA (DsaKey [1024]) ≠ PKEY_RSA rsa) as Hother by done.
  assert (sc_pkcs15init_setup_key dsa_request 0 start
          = Ret (0, set_ka_id dsa_request [0x45],
                 (value_of (sc_pkcs15init_setup_key dsa_request 0 start)
                    (0, dsa_request, zero_key_template)).2)
                (state_of (sc_pkcs15init_setup_key dsa_request 0 start) start)) as Hsetup
    by (vm_compute; reflexivity).
  assert (0 ≤ ka_algorithm dsa_request < 65536) as Halg by (cbn; lia).
  split; [reflexivity|]. split; [|vm_compute; reflexivity].
  apply (proj2 (store_public_key_registers_then_rejects 1 dsa_request _ start eq_refl Hother)
           0 _ _ _ Halg Hsetup).
  done.
Defined.


End OnTheSimulatedCard.
